(** * Catalyst system: orchestration and database writers

    A shallow embedding of [src/pkg/catalyst_system.py] and
    [src/pkg/database_utils.py].

    The program is glue code around external collaborators (the geometry
    library, the relaxation routine, the record store, the filesystem).
    Every call that leaves the program is recorded as an [Event] of a
    chronological trace, and the answer of a collaborator is an arbitrary
    function of the trace so far and of the arguments of the call (class
    [World]).  Python objects that the program mutates and shares (Bulk,
    Slab and the candidate structures of a configuration) live in an
    object store indexed by locations, so that two references to one
    object see the same [db_id]. *)

From Stdlib Require Import String Ascii List ZArith Lia Bool Arith DecimalString.
From Stdlib Require DecimalPos DecimalZ.
Import ListNotations.
Local Open Scope list_scope.
Local Open Scope string_scope.

(** ** Python values used by the program *)

(** Exceptions.  All three are subclasses of Python's [Exception], which
    is what the two [except Exception] clauses of the program catch;
    [ExternalError] stands for whatever a collaborator raises. *)
Inductive exn : Type :=
| AttributeError (msg : string)
| TypeError (msg : string)
| ExternalError (msg : string).

(** [str(e)] *)
Definition exn_str (e : exn) : string :=
  match e with
  | AttributeError m => m
  | TypeError m => m
  | ExternalError m => m
  end.

(** [str(n)] for an integer, as an f-string formats it. *)
Definition str_int (z : Z) : string := NilZero.string_of_int (Z.to_int z).

(** Values of the keyword arguments handed to [db.write]. *)
Inductive TagVal : Type :=
| TInt (z : Z)
| TBool (b : bool).

Definition Tags := list (string * TagVal).

(** Locations of objects, and identities of record-store handles. *)
Definition loc := nat.
Definition Db := nat.

(** ** External structures *)

(** [ase.Atoms] structures and calculators are opaque to this program;
    the only method it calls on a structure is [get_chemical_formula]. *)
Class Structures : Type := {
  Atoms : Type;
  Calc : Type;
  get_chemical_formula : Atoms -> string
}.

Section Model.
Context {ST : Structures}.

(** Calls that leave the program, in the order they happen. *)
Inductive Event : Type :=
| EPrint (line : string)
| ESlabs (bulk_atoms : Atoms)
| EPlace (slab_atoms adsorbate_atoms : Atoms) (num_sites num_augmentations_per_site : Z) (mode : string)
| EMakedirs (dir : string) (exist_ok : bool)
| ERelax (atoms : Atoms) (traj_path log_path : string) (calc : option Calc)
| EDbEnter (db : Db)
| EDbWrite (db : Db) (atoms : Atoms) (kv : Tags) (result : exn + Z)
| EDbExit (db : Db) (exc : option exn).

(** The collaborators.  Each answers as a function of the history. *)
Class World : Type := {
  (** [Slab.from_bulk_get_all_slabs(bulk)]: the structures of the slabs *)
  world_slabs : list Event -> Atoms -> exn + list Atoms;
  (** [AdsorbateSlabConfig(slab, adsorbate, num_sites, num_augmentations_per_site, mode=mode)]:
      the candidate structures of the configuration *)
  world_place : list Event -> Atoms -> Atoms -> Z -> Z -> string -> exn + list Atoms;
  (** [os.makedirs(dir, exist_ok=...)] *)
  world_makedirs : list Event -> string -> bool -> option exn;
  (** [calculate.calculate_energy_of_slab(atoms, traj_path, log_path, calc)] *)
  world_relax : list Event -> Atoms -> string -> string -> option Calc -> exn + Atoms;
  (** [db.write(atoms, **kv)]: the id the store assigns *)
  world_db_write : list Event -> Db -> Atoms -> Tags -> exn + Z
}.

Context {W : World}.

(** ** Objects *)

(** [db_id] is an attribute that only the database writers assign:
    [None] means that the object has no such attribute yet. *)
Record Bulk : Type := {
  bulk_atoms : Atoms;
  bulk_db_id : option Z
}.

Record Slab : Type := {
  slab_atoms : Atoms;
  slab_bulk : loc;
  slab_db_id : option Z
}.

(** A candidate structure of a configuration's [atoms_list]. *)
Record Candidate : Type := {
  cand_atoms : Atoms;
  cand_db_id : option Z
}.

Record Adsorbate : Type := {
  adsorbate_atoms : Atoms
}.

Record AdsorbateSlabConfig : Type := {
  cfg_slab : loc;
  cfg_adsorbate : Adsorbate;
  cfg_atoms_list : list loc
}.

(** The structure returned by a relaxation, with the attributes
    [relax_adsorbate_slabs] sets on it ([None]: attribute not set). *)
Record RelaxedAdslab : Type := {
  rel_atoms : Atoms;
  rel_bulk_id : option Z;
  rel_slab_id : option Z;
  rel_adslab_id : option Z;
  rel_adsorbate : option string
}.

(** ** State and the monad of the program *)

Record State : Type := {
  st_bulks : loc -> Bulk;
  st_slabs : loc -> Slab;
  st_cands : loc -> Candidate;
  st_next : loc;
  st_trace : list Event
}.

Inductive outcome (A : Type) : Type :=
| Ok (a : A)
| Raise (e : exn).
Arguments Ok {A} a.
Arguments Raise {A} e.

(** A computation returns or raises, and keeps the state either way. *)
Definition M (A : Type) : Type := State -> outcome A * State.

Definition ret {A} (a : A) : M A := fun s => (Ok a, s).

Definition raise {A} (e : exn) : M A := fun s => (Raise e, s).

Definition bind {A B} (m : M A) (k : A -> M B) : M B :=
  fun s =>
    match m s with
    | (Ok a, s') => k a s'
    | (Raise e, s') => (Raise e, s')
    end.

(** [try: m  except Exception as e: handler e] *)
Definition try_except {A} (m : M A) (handler : exn -> M A) : M A :=
  fun s =>
    match m s with
    | (Ok a, s') => (Ok a, s')
    | (Raise e, s') => handler e s'
    end.

Definition exc_of {A} (r : outcome A) : option exn :=
  match r with
  | Ok _ => None
  | Raise e => Some e
  end.

End Model.

Arguments Ok {A} a.
Arguments Raise {A} e.

Declare Scope py_scope.
Delimit Scope py_scope with py.
Notation "x <- m ;; k" := (bind m (fun x => k))
  (at level 61, m at next level, right associativity) : py_scope.
Notation "m ;; k" := (bind m (fun _ => k))
  (at level 61, right associativity) : py_scope.
Local Open Scope py_scope.

Section Program.
Context {ST : Structures} {W : World}.

Definition emit (ev : Event) : M unit :=
  fun s => (Ok tt, {| st_bulks := st_bulks s; st_slabs := st_slabs s;
                      st_cands := st_cands s; st_next := st_next s;
                      st_trace := st_trace s ++ [ev] |}).

(** [for x in xs: body x] *)
Fixpoint for_each {A} (xs : list A) (body : A -> M unit) : M unit :=
  match xs with
  | [] => ret tt
  | x :: xs' => body x ;; for_each xs' body
  end.

(** [[f x for x in xs]] *)
Fixpoint map_m {A B} (f : A -> M B) (xs : list A) : M (list B) :=
  match xs with
  | [] => ret []
  | x :: xs' => y <- f x ;; ys <- map_m f xs' ;; ret (y :: ys)
  end.

(** [enumerate(xs)] *)
Definition enumerate {A} (xs : list A) : list (nat * A) :=
  combine (seq 0 (length xs)) xs.

Definition print (line : string) : M unit := emit (EPrint line).

(** *** Attribute access on stored objects *)

Definition upd {A} (f : loc -> A) (l : loc) (v : A) : loc -> A :=
  fun l' => if Nat.eqb l' l then v else f l'.

Definition get_bulk (l : loc) : M Bulk := fun s => (Ok (st_bulks s l), s).
Definition get_slab (l : loc) : M Slab := fun s => (Ok (st_slabs s l), s).
Definition get_cand (l : loc) : M Candidate := fun s => (Ok (st_cands s l), s).

(** [obj.db_id]: raises when the attribute was never assigned. *)
Definition read_db_id (cls : string) (v : option Z) : M Z :=
  match v with
  | Some id => ret id
  | None => raise (AttributeError ("'" ++ cls ++ "' object has no attribute 'db_id'"))
  end.

(** [bulk.db_id = id] *)
Definition set_bulk_db_id (l : loc) (id : Z) : M unit :=
  fun s =>
    let b := st_bulks s l in
    (Ok tt, {| st_bulks := upd (st_bulks s) l {| bulk_atoms := bulk_atoms b; bulk_db_id := Some id |};
               st_slabs := st_slabs s; st_cands := st_cands s;
               st_next := st_next s; st_trace := st_trace s |}).

(** [slab.db_id = id] *)
Definition set_slab_db_id (l : loc) (id : Z) : M unit :=
  fun s =>
    let x := st_slabs s l in
    (Ok tt, {| st_bulks := st_bulks s;
               st_slabs := upd (st_slabs s) l
                 {| slab_atoms := slab_atoms x; slab_bulk := slab_bulk x; slab_db_id := Some id |};
               st_cands := st_cands s; st_next := st_next s; st_trace := st_trace s |}).

(** [atom_obj.db_id = id] *)
Definition set_cand_db_id (l : loc) (id : Z) : M unit :=
  fun s =>
    let c := st_cands s l in
    (Ok tt, {| st_bulks := st_bulks s; st_slabs := st_slabs s;
               st_cands := upd (st_cands s) l {| cand_atoms := cand_atoms c; cand_db_id := Some id |};
               st_next := st_next s; st_trace := st_trace s |}).

(** ** The record store *)

(** [db.write(atoms, **kv)]: the call is recorded with its result. *)
Definition db_write (db : Db) (atoms : Atoms) (kv : Tags) : M Z :=
  fun s =>
    let r := world_db_write (st_trace s) db atoms kv in
    let s' := {| st_bulks := st_bulks s; st_slabs := st_slabs s; st_cands := st_cands s;
                 st_next := st_next s;
                 st_trace := st_trace s ++ [EDbWrite db atoms kv r] |} in
    match r with
    | inr id => (Ok id, s')
    | inl e => (Raise e, s')
    end.

(** [with db as db: body].  The handle follows the context-manager
    protocol of a record store: [__enter__] returns the handle itself
    and [__exit__] is told of the exception that leaves the block, if
    any, and does not swallow it. *)
Definition with_db {A} (db : Db) (body : M A) : M A :=
  fun s =>
    match (emit (EDbEnter db) ;; body) s with
    | (r, s') => (r, snd (emit (EDbExit db (exc_of r)) s'))
    end.

(** ** database_utils.py *)

Definition write_bulks_to_db (bulks : list loc) (db : Db) : M unit :=
  with_db db
    (for_each bulks (fun bulk =>
       b <- get_bulk bulk ;;
       id <- db_write db (bulk_atoms b) [] ;;
       set_bulk_db_id bulk id)).

Definition write_slabs_to_db (slabs : list (list loc)) (db : Db) : M unit :=
  with_db db
    (for_each slabs (fun slab_list =>
       for_each slab_list (fun slab =>
         x <- get_slab slab ;;
         b <- get_bulk (slab_bulk x) ;;
         bulk_id <- read_db_id "Bulk" (bulk_db_id b) ;;
         id <- db_write db (slab_atoms x) [("bulk_id", TInt bulk_id)] ;;
         set_slab_db_id slab id))).

Definition write_adsorbate_slab_configs_to_db
    (adsorbate_slab_configs : list AdsorbateSlabConfig) (db : Db) : M unit :=
  with_db db
    (for_each adsorbate_slab_configs (fun adsorbate_slab_config =>
       for_each (cfg_atoms_list adsorbate_slab_config) (fun atom_obj =>
         c <- get_cand atom_obj ;;
         x <- get_slab (cfg_slab adsorbate_slab_config) ;;
         b <- get_bulk (slab_bulk x) ;;
         bulk_id <- read_db_id "Bulk" (bulk_db_id b) ;;
         x' <- get_slab (cfg_slab adsorbate_slab_config) ;;
         slab_id <- read_db_id "Slab" (slab_db_id x') ;;
         id <- db_write db (cand_atoms c)
                 [("bulk_id", TInt bulk_id); ("slab_id", TInt slab_id); ("relaxed", TBool false)] ;;
         set_cand_db_id atom_obj id))).

(** [adslab.name] for the attributes [relax_adsorbate_slabs] assigns. *)
Definition read_attr {A} (name : string) (v : option A) : M A :=
  match v with
  | Some a => ret a
  | None => raise (AttributeError ("'Atoms' object has no attribute '" ++ name ++ "'"))
  end.

Definition write_adsorbate_slabs_to_db (adslabs : list RelaxedAdslab) (db : Db) : M unit :=
  with_db db
    (for_each adslabs (fun adslab =>
       bulk_id <- read_attr "bulk_id" (rel_bulk_id adslab) ;;
       slab_id <- read_attr "slab_id" (rel_slab_id adslab) ;;
       adslab_id <- read_attr "adslab_id" (rel_adslab_id adslab) ;;
       _ <- db_write db (rel_atoms adslab)
              [("bulk_id", TInt bulk_id); ("slab_id", TInt slab_id);
               ("adslab_id", TInt adslab_id); ("relaxed", TBool true)] ;;
       ret tt)).

(** Attributes of the module [database_utils]: the name it imports and
    the four functions it defines. *)
Definition database_utils : list string :=
  ["connect"; "write_bulks_to_db"; "write_slabs_to_db";
   "write_adsorbate_slab_configs_to_db"; "write_adsorbate_slabs_to_db"].

(** [module.name]: looking up a name the module does not define raises. *)
Definition module_getattr (modname : string) (attrs : list string) (name : string) : M string :=
  if existsb (String.eqb name) attrs then ret name
  else raise (AttributeError ("module '" ++ modname ++ "' has no attribute '" ++ name ++ "'")).

(** A writer of [database_utils] called on an object that is not a
    collection: each of the four opens the store and then starts a
    [for] loop over its first argument. *)
Definition call_writer_on_object (writer : string) (cls : string) (db : Db) : M unit :=
  with_db db (raise (TypeError ("'" ++ cls ++ "' object is not iterable"))).

(** [write_slabs_to_db] called on [self.slabs], which is [None] or a flat
    list of Slab objects: the outer loop then binds [slab_list] to a Slab. *)
Definition write_slabs_to_db_flat (slabs : option (list loc)) (db : Db) : M unit :=
  with_db db
    match slabs with
    | None => raise (TypeError "'NoneType' object is not iterable")
    | Some l => for_each l (fun _ => raise (TypeError "'Slab' object is not iterable"))
    end.

(** ** The external collaborators as calls *)

(** [Bulk(bulk_atoms=bulk_atoms)] *)
Definition new_bulk (atoms : Atoms) : M loc :=
  fun s =>
    (Ok (st_next s),
     {| st_bulks := upd (st_bulks s) (st_next s) {| bulk_atoms := atoms; bulk_db_id := None |};
        st_slabs := st_slabs s; st_cands := st_cands s;
        st_next := S (st_next s); st_trace := st_trace s |}).

Definition new_slab (bulk : loc) (atoms : Atoms) : M loc :=
  fun s =>
    (Ok (st_next s),
     {| st_bulks := st_bulks s;
        st_slabs := upd (st_slabs s) (st_next s)
          {| slab_atoms := atoms; slab_bulk := bulk; slab_db_id := None |};
        st_cands := st_cands s;
        st_next := S (st_next s); st_trace := st_trace s |}).

Definition new_cand (atoms : Atoms) : M loc :=
  fun s =>
    (Ok (st_next s),
     {| st_bulks := st_bulks s; st_slabs := st_slabs s;
        st_cands := upd (st_cands s) (st_next s) {| cand_atoms := atoms; cand_db_id := None |};
        st_next := S (st_next s); st_trace := st_trace s |}).

(** Modelled from the spec: [Slab.from_bulk_get_all_slabs] belongs to the
    geometry library.  It enumerates the slabs of the bulk or raises; each
    slab it creates references the bulk it was cut from. *)
Definition Slab_from_bulk_get_all_slabs (bulk : loc) : M (list loc) :=
  b <- get_bulk bulk ;;
  structures <- (fun s =>
      let r := world_slabs (st_trace s) (bulk_atoms b) in
      let s' := snd (emit (ESlabs (bulk_atoms b)) s) in
      match r with
      | inr l => (Ok l, s')
      | inl e => (Raise e, s')
      end) ;;
  map_m (new_slab bulk) structures.

(** Modelled from the spec: the constructor [AdsorbateSlabConfig] belongs
    to the geometry library.  It places the adsorbate on the slab or
    raises; the configuration keeps a reference to the slab and the
    ordered candidate structures. *)
Definition new_AdsorbateSlabConfig (slab : loc) (adsorbate : Adsorbate)
    (num_sites num_augmentations_per_site : Z) (mode : string) : M AdsorbateSlabConfig :=
  x <- get_slab slab ;;
  structures <- (fun s =>
      let r := world_place (st_trace s) (slab_atoms x) (adsorbate_atoms adsorbate)
                 num_sites num_augmentations_per_site mode in
      let s' := snd (emit (EPlace (slab_atoms x) (adsorbate_atoms adsorbate)
                             num_sites num_augmentations_per_site mode) s) in
      match r with
      | inr l => (Ok l, s')
      | inl e => (Raise e, s')
      end) ;;
  atoms_list <- map_m new_cand structures ;;
  ret {| cfg_slab := slab; cfg_adsorbate := adsorbate; cfg_atoms_list := atoms_list |}.

(** Modelled from the spec: [calculate.calculate_energy_of_slab] is a
    module of the repository that is not part of the sources at hand.  It
    relaxes one structure with the calculator, writing to the trajectory
    and log paths, and returns the relaxed structure, created by that run,
    or raises.  The attributes [relax_adsorbate_slabs] then sets belong
    to that structure alone. *)
Definition calculate_energy_of_slab (atom_obj : loc) (traj_path log_path : string)
    (calc : option Calc) : M RelaxedAdslab :=
  c <- get_cand atom_obj ;;
  fun s =>
    let r := world_relax (st_trace s) (cand_atoms c) traj_path log_path calc in
    let s' := snd (emit (ERelax (cand_atoms c) traj_path log_path calc) s) in
    match r with
    | inr a => (Ok {| rel_atoms := a; rel_bulk_id := None; rel_slab_id := None;
                      rel_adslab_id := None; rel_adsorbate := None |}, s')
    | inl e => (Raise e, s')
    end.

(** [posixpath.join(a, b)] on two strings. *)
Definition posix_join (a b : string) : string :=
  if String.prefix "/" b then b
  else if (String.eqb a "" || String.eqb (substring (String.length a - 1) 1 a) "/")%bool
       then a ++ b
       else a ++ "/" ++ b.

(** [os.path.join(a, b)]: [a] must be a string. *)
Definition os_path_join (a : option string) (b : string) : M string :=
  match a with
  | None => raise (TypeError "expected str, bytes or os.PathLike object, not NoneType")
  | Some a => ret (posix_join a b)
  end.

(** [os.makedirs(dir, exist_ok=exist_ok)] *)
Definition os_makedirs (dir : string) (exist_ok : bool) : M unit :=
  fun s =>
    let r := world_makedirs (st_trace s) dir exist_ok in
    let s' := snd (emit (EMakedirs dir exist_ok) s) in
    match r with
    | None => (Ok tt, s')
    | Some e => (Raise e, s')
    end.

(** ** catalyst_system.py *)

Record CatalystSystem : Type := {
  path : option string;          (* [None] is Python's [None] *)
  calc : option Calc;            (* [None] is Python's [None] *)
  bulk : loc;
  slabs : option (list loc);     (* [None] is Python's [None] *)
  adsorbate_slab_configs : option (list AdsorbateSlabConfig)
                                 (* [None]: the attribute was never assigned *)
}.

Definition bulk_to_slabs (bulk : loc) : M (option (list loc)) :=
  try_except
    (l <- Slab_from_bulk_get_all_slabs bulk ;; ret (Some l))
    (fun e =>
       print "Error creating slab from bulk" ;;
       print (exn_str e) ;;
       ret None).

Definition slab_to_adsorbate_slab_config (slab : loc) (adsorbate : Adsorbate) (mode : string)
    (num_sites num_augmentations_per_site : Z) : M AdsorbateSlabConfig :=
  new_AdsorbateSlabConfig slab adsorbate num_sites num_augmentations_per_site mode.

(** [if self.slabs:] holds for a non-empty list only. *)
Definition truthy_slabs (slabs : option (list loc)) : option (list loc) :=
  match slabs with
  | Some (x :: l) => Some (x :: l)
  | _ => None
  end.

Definition init (bulk_atoms : Atoms) (adsorbate : Adsorbate) (mode : string)
    (num_sites num_augmentations_per_site : Z) : M CatalystSystem :=
  bulk <- new_bulk bulk_atoms ;;
  slabs <- bulk_to_slabs bulk ;;
  match truthy_slabs slabs with
  | Some l =>
      configs <- map_m (fun slab => slab_to_adsorbate_slab_config slab adsorbate mode
                                      num_sites num_augmentations_per_site) l ;;
      ret {| path := None; calc := None; bulk := bulk; slabs := slabs;
             adsorbate_slab_configs := Some configs |}
  | None =>
      ret {| path := None; calc := None; bulk := bulk; slabs := slabs;
             adsorbate_slab_configs := None |}
  end.

Definition set_calculator (self : CatalystSystem) (c : Calc) : CatalystSystem :=
  {| path := path self; calc := Some c; bulk := bulk self; slabs := slabs self;
     adsorbate_slab_configs := adsorbate_slab_configs self |}.

Definition set_path (self : CatalystSystem) (p : string) : CatalystSystem :=
  {| path := Some p; calc := calc self; bulk := bulk self; slabs := slabs self;
     adsorbate_slab_configs := adsorbate_slab_configs self |}.

Definition write_relaxed_adsorbate_slabs_to_db (relaxed_adslabs : list RelaxedAdslab) (db : Db)
    : M unit :=
  write_adsorbate_slabs_to_db relaxed_adslabs db.

(** [f"bulk{bulk_id}_slab{slab_id}"] *)
Definition slab_dir (bulk_id slab_id : Z) : string :=
  "bulk" ++ str_int bulk_id ++ "_slab" ++ str_int slab_id.

(** One turn of the loop over [enumerate(adsorbate_slab_config.atoms_list)];
    the result is the list [relaxed_adslabs] after the turn. *)
Definition relax_candidate (self : CatalystSystem) (bulk_id slab_id : Z) (adsorbate : string)
    (relaxed_adslabs : list RelaxedAdslab) (i : nat) (atom_obj : loc) : M (list RelaxedAdslab) :=
  log_path <- os_path_join (path self)
                (slab_dir bulk_id slab_id ++ "/adslab" ++ str_int (Z.of_nat i) ++ ".txt") ;;
  traj_path <- os_path_join (path self)
                 (slab_dir bulk_id slab_id ++ "/adslab" ++ str_int (Z.of_nat i) ++ ".traj") ;;
  r <- try_except
         (relaxed_adslab <- calculate_energy_of_slab atom_obj traj_path log_path (calc self) ;;
          ret (Some relaxed_adslab))
         (fun e =>
            print ("Error relaxing adsorbate slab bulk" ++ str_int bulk_id ++ ",slab"
                   ++ str_int slab_id ++ ",adslab" ++ str_int (Z.of_nat i) ++ ": " ++ exn_str e) ;;
            ret None) ;;
  match r with
  | None => ret relaxed_adslabs                           (* continue *)
  | Some relaxed_adslab =>
      ret (relaxed_adslabs ++
           [{| rel_atoms := rel_atoms relaxed_adslab;
               rel_bulk_id := Some bulk_id;
               rel_slab_id := Some slab_id;
               rel_adslab_id := Some (Z.of_nat i);
               rel_adsorbate := Some adsorbate |}])%list
  end.

Fixpoint relax_candidates (self : CatalystSystem) (bulk_id slab_id : Z) (adsorbate : string)
    (todo : list (nat * loc)) (relaxed_adslabs : list RelaxedAdslab) : M (list RelaxedAdslab) :=
  match todo with
  | [] => ret relaxed_adslabs
  | (i, atom_obj) :: todo' =>
      relaxed_adslabs' <- relax_candidate self bulk_id slab_id adsorbate relaxed_adslabs i atom_obj ;;
      relax_candidates self bulk_id slab_id adsorbate todo' relaxed_adslabs'
  end.

(** One turn of the loop over [self.adsorbate_slab_configs]. *)
Definition relax_config (self : CatalystSystem) (db : Db)
    (adsorbate_slab_config : AdsorbateSlabConfig) : M unit :=
  x <- get_slab (cfg_slab adsorbate_slab_config) ;;
  b <- get_bulk (slab_bulk x) ;;
  bulk_id <- read_db_id "Bulk" (bulk_db_id b) ;;
  x' <- get_slab (cfg_slab adsorbate_slab_config) ;;
  slab_id <- read_db_id "Slab" (slab_db_id x') ;;
  let adsorbate := get_chemical_formula (adsorbate_atoms (cfg_adsorbate adsorbate_slab_config)) in
  dir <- os_path_join (path self) (slab_dir bulk_id slab_id) ;;
  os_makedirs dir true ;;
  relaxed_adslabs <- relax_candidates self bulk_id slab_id adsorbate
                       (enumerate (cfg_atoms_list adsorbate_slab_config)) [] ;;
  write_relaxed_adsorbate_slabs_to_db relaxed_adslabs db.

Definition relax_adsorbate_slabs (self : CatalystSystem) (db : Db) : M unit :=
  match adsorbate_slab_configs self with
  | None => raise (AttributeError "'CatalystSystem' object has no attribute 'adsorbate_slab_configs'")
  | Some configs => for_each configs (relax_config self db)
  end.

Definition write_to_db (self : CatalystSystem) (bulk_db slab_db : Db) : M unit :=
  write_bulk_to_db <- module_getattr "database_utils" database_utils "write_bulk_to_db" ;;
  call_writer_on_object write_bulk_to_db "Bulk" bulk_db ;;
  write_slabs_to_db_flat (slabs self) slab_db.

End Program.

(** ** The loop bodies of the writers, named

    The writers above are written as the source has them, with their
    loop bodies in line; the proofs refer to the bodies by these names. *)

Section Bodies.
Context {ST : Structures} {W : World}.

Definition write_bulk_body (db : Db) (bulk : loc) : M unit :=
  b <- get_bulk bulk ;;
  id <- db_write db (bulk_atoms b) [] ;;
  set_bulk_db_id bulk id.

Definition write_slab_body (db : Db) (slab : loc) : M unit :=
  x <- get_slab slab ;;
  b <- get_bulk (slab_bulk x) ;;
  bulk_id <- read_db_id "Bulk" (bulk_db_id b) ;;
  id <- db_write db (slab_atoms x) [("bulk_id", TInt bulk_id)] ;;
  set_slab_db_id slab id.

Definition write_cand_body (db : Db) (adsorbate_slab_config : AdsorbateSlabConfig)
    (atom_obj : loc) : M unit :=
  c <- get_cand atom_obj ;;
  x <- get_slab (cfg_slab adsorbate_slab_config) ;;
  b <- get_bulk (slab_bulk x) ;;
  bulk_id <- read_db_id "Bulk" (bulk_db_id b) ;;
  x' <- get_slab (cfg_slab adsorbate_slab_config) ;;
  slab_id <- read_db_id "Slab" (slab_db_id x') ;;
  id <- db_write db (cand_atoms c)
          [("bulk_id", TInt bulk_id); ("slab_id", TInt slab_id); ("relaxed", TBool false)] ;;
  set_cand_db_id atom_obj id.

Definition write_adslab_body (db : Db) (adslab : RelaxedAdslab) : M unit :=
  bulk_id <- read_attr "bulk_id" (rel_bulk_id adslab) ;;
  slab_id <- read_attr "slab_id" (rel_slab_id adslab) ;;
  adslab_id <- read_attr "adslab_id" (rel_adslab_id adslab) ;;
  _ <- db_write db (rel_atoms adslab)
         [("bulk_id", TInt bulk_id); ("slab_id", TInt slab_id);
          ("adslab_id", TInt adslab_id); ("relaxed", TBool true)] ;;
  ret tt.

(** The candidates of a collection of configurations, each with its
    configuration, in the order the nested loops visit them. *)
Definition config_candidates (cfgs : list AdsorbateSlabConfig)
    : list (AdsorbateSlabConfig * loc) :=
  flat_map (fun c => map (pair c) (cfg_atoms_list c)) cfgs.

(** The ids a configuration is tagged with: those of the bulk of its slab
    and of its slab, when both are assigned. *)
Definition config_ids (s : State) (c : AdsorbateSlabConfig) : option (Z * Z) :=
  match bulk_db_id (st_bulks s (slab_bulk (st_slabs s (cfg_slab c)))),
        slab_db_id (st_slabs s (cfg_slab c)) with
  | Some bulk_id, Some slab_id => Some (bulk_id, slab_id)
  | _, _ => None
  end.

(** Calls of the two setters, in any number and order. *)
Inductive setter : Type :=
| SetPath (p : string)
| SetCalculator (c : Calc).

Definition apply_setter (self : CatalystSystem) (st : setter) : CatalystSystem :=
  match st with
  | SetPath p => set_path self p
  | SetCalculator c => set_calculator self c
  end.

Definition apply_setters (self : CatalystSystem) (sts : list setter) : CatalystSystem :=
  fold_left apply_setter sts self.

End Bodies.

(** ** A concrete world, for running the program *)

Module Sample.

Definition structures : Structures :=
  {| Atoms := nat; Calc := unit; get_chemical_formula := fun _ => "CO" |}.

(** Enumeration yields two slabs, placement three candidates per slab,
    the relaxation of structure 101 fails, and the store numbers its
    records by the length of the history. *)
Definition world : @World structures :=
  @Build_World structures
    (fun _ (a : nat) => inr [a + 10; a + 11])
    (fun _ (s : nat) _ _ _ _ => inr [s * 10; s * 10 + 1; s * 10 + 2])
    (fun _ _ _ => None)
    (fun _ (a : nat) _ _ _ =>
       if Nat.eqb a 101 then inl (ExternalError "diverged") else inr (a + 1000))
    (fun tr _ _ _ => inr (Z.of_nat (length tr))).

(** The same world with a geometry library that fails to cut slabs. *)
Definition world_no_slabs : @World structures :=
  @Build_World structures
    (fun _ _ => inl (ExternalError "no slabs"))
    (@world_place _ world) (@world_makedirs _ world)
    (@world_relax _ world) (@world_db_write _ world).

Definition state0 : @State structures :=
  @Build_State structures
    (fun _ => @Build_Bulk structures 0 None)
    (fun _ => @Build_Slab structures 0 0 None)
    (fun _ => @Build_Candidate structures 0 None)
    0 [].

Definition CO : @Adsorbate structures := @Build_Adsorbate structures 7.

(** A store that refuses structure 13. *)
Definition world_refusing : @World structures :=
  @Build_World structures
    (@world_slabs _ world) (@world_place _ world) (@world_makedirs _ world)
    (@world_relax _ world)
    (fun tr _ (a : nat) _ =>
       if Nat.eqb a 13 then inl (ExternalError "refused") else inr (Z.of_nat (length tr))).

Definition unbuilt : @CatalystSystem structures :=
  @Build_CatalystSystem structures None None 0 None None.

(** The system built from bulk structure 0, and the state it is built in. *)
Definition built : @CatalystSystem structures :=
  match fst (@init structures world 0 CO "random" 100%Z 1%Z state0) with
  | Ok self => self
  | Raise _ => unbuilt
  end.

Definition state_built : @State structures :=
  snd (@init structures world 0 CO "random" 100%Z 1%Z state0).

(** The state after the bulk and the slabs of [built] were written. *)
Definition state_written : @State structures :=
  snd ((@write_bulks_to_db structures world [0] 5 ;;
        @write_slabs_to_db structures world [[1; 2]] 6) state_built).

Definition ready : @CatalystSystem structures := set_path built "out".

Definition first_config : @AdsorbateSlabConfig structures :=
  @Build_AdsorbateSlabConfig structures 1 CO [3; 4; 5].

Definition second_config : @AdsorbateSlabConfig structures :=
  @Build_AdsorbateSlabConfig structures 2 CO [6; 7; 8].

(** The system built where the geometry library cuts no slabs. *)
Definition degraded : @CatalystSystem structures :=
  match fst (@init structures world_no_slabs 0 CO "random" 100%Z 1%Z state0) with
  | Ok self => self
  | Raise _ => unbuilt
  end.

Definition state_degraded : @State structures :=
  snd (@init structures world_no_slabs 0 CO "random" 100%Z 1%Z state0).

(** Three bulks with structures 12, 13 and 14. *)
Definition state_three_bulks : @State structures :=
  @Build_State structures
    (fun l => @Build_Bulk structures (12 + l) None)
    (fun _ => @Build_Slab structures 0 0 None)
    (fun _ => @Build_Candidate structures 0 None)
    3 [].

End Sample.

(** ** More worlds, for the further properties *)

Module Worlds.
Import Sample.

(** A geometry library that cannot place the adsorbate. *)
Definition no_placement : @World structures :=
  @Build_World structures
    (@world_slabs _ world) (fun _ _ _ _ _ _ => inl (ExternalError "no site"))
    (@world_makedirs _ world) (@world_relax _ world) (@world_db_write _ world).

(** A geometry library that finds no slab. *)
Definition empty_enumeration : @World structures :=
  @Build_World structures
    (fun _ _ => inr []) (@world_place _ world)
    (@world_makedirs _ world) (@world_relax _ world) (@world_db_write _ world).

(** A calculator that never converges. *)
Definition no_relaxation : @World structures :=
  @Build_World structures
    (@world_slabs _ world) (@world_place _ world) (@world_makedirs _ world)
    (fun _ _ _ _ _ => inl (ExternalError "diverged")) (@world_db_write _ world).

(** A filesystem that cannot be written. *)
Definition read_only : @World structures :=
  @Build_World structures
    (@world_slabs _ world) (@world_place _ world)
    (fun _ _ _ => Some (ExternalError "read-only file system"))
    (@world_relax _ world) (@world_db_write _ world).

(** A store that refuses every write. *)
Definition store_down : @World structures :=
  @Build_World structures
    (@world_slabs _ world) (@world_place _ world) (@world_makedirs _ world)
    (@world_relax _ world) (fun _ _ _ _ => inl (ExternalError "locked")).

End Worlds.

(** ** Reading a trace *)

Section Traces.
Context {ST : Structures}.

(** A record the store accepted, and a write it refused with [e]. *)
Definition ok_write (db : Db) (ev : Event) : Prop :=
  exists a kv id, ev = EDbWrite db a kv (inr id).

Definition failed_write (db : Db) (e : exn) (ev : Event) : Prop :=
  exists a kv, ev = EDbWrite db a kv (inl e).

(** The events of a block of writes that ended with outcome [r]: accepted
    records only, followed, when the block raised [e] and the store was
    the one to raise it, by the refused write. *)
Definition writes_until (db : Db) {A} (r : outcome A) (evs : list Event) : Prop :=
  match r with
  | Ok _ => Forall (ok_write db) evs
  | Raise e =>
      exists oks tl, evs = (oks ++ tl)%list /\ Forall (ok_write db) oks /\
                     (tl = [] \/ exists ev, tl = [ev] /\ failed_write db e ev)
  end.

Definition is_relax (ev : Event) : bool :=
  match ev with
  | ERelax _ _ _ _ => true
  | _ => false
  end.

(** Keyword arguments of the three tagged writes. *)
Definition slab_tags (bulk_id : Z) : Tags := [("bulk_id", TInt bulk_id)].

Definition config_tags (bulk_id slab_id : Z) : Tags :=
  [("bulk_id", TInt bulk_id); ("slab_id", TInt slab_id); ("relaxed", TBool false)].

Definition relaxed_tags (bulk_id slab_id : Z) (i : nat) : Tags :=
  [("bulk_id", TInt bulk_id); ("slab_id", TInt slab_id);
   ("adslab_id", TInt (Z.of_nat i)); ("relaxed", TBool true)].

(** The paths and the message [relax_adsorbate_slabs] builds for
    candidate [i] of a configuration with ids [B] and [S], under [p]. *)
Definition log_path_of (p : string) (B S : Z) (i : nat) : string :=
  posix_join p (slab_dir B S ++ "/adslab" ++ str_int (Z.of_nat i) ++ ".txt").

Definition traj_path_of (p : string) (B S : Z) (i : nat) : string :=
  posix_join p (slab_dir B S ++ "/adslab" ++ str_int (Z.of_nat i) ++ ".traj").

Definition relax_error_line (B S : Z) (i : nat) (e : exn) : string :=
  "Error relaxing adsorbate slab bulk" ++ str_int B ++ ",slab" ++ str_int S
  ++ ",adslab" ++ str_int (Z.of_nat i) ++ ": " ++ exn_str e.

(** The relaxation call made for entry [(i, atom_obj)] of the enumeration. *)
Definition relax_call (s : State) (self : CatalystSystem) (p : string) (B S : Z)
    (il : nat * loc) : Event :=
  ERelax (cand_atoms (st_cands s (snd il)))
    (traj_path_of p B S (fst il)) (log_path_of p B S (fst il)) (calc self).

(** What the loop over the candidates leaves in the trace for entry
    [(i, atom_obj)] when only the relaxation of candidate [k] fails, with [e]. *)
Definition candidate_events (s : State) (self : CatalystSystem) (p : string) (B S : Z)
    (k : nat) (e : exn) (il : nat * loc) : list Event :=
  relax_call s self p B S il
  :: (if Nat.eqb (fst il) k then [EPrint (relax_error_line B S k e)] else []).

(** The relaxation of candidate [k] fails with [e], whatever the history,
    and the relaxation of every other candidate of the list succeeds. *)
Definition only_candidate_fails {W : World} (s : State) (self : CatalystSystem)
    (p : string) (B S : Z) (k : nat) (e : exn) (todo : list (nat * loc)) : Prop :=
  forall tr i l, In (i, l) todo ->
    if Nat.eqb i k
    then world_relax tr (cand_atoms (st_cands s l))
           (traj_path_of p B S i) (log_path_of p B S i) (calc self) = inl e
    else exists a, world_relax tr (cand_atoms (st_cands s l))
           (traj_path_of p B S i) (log_path_of p B S i) (calc self) = inr a.

(** The record [r] is the relaxed structure of candidate [i]. *)
Definition relaxed_from {W : World} (s : State) (self : CatalystSystem)
    (p : string) (B S : Z) (todo : list (nat * loc)) (i : nat) (a : Atoms) : Prop :=
  exists tr l, In (i, l) todo
    /\ world_relax tr (cand_atoms (st_cands s l))
         (traj_path_of p B S i) (log_path_of p B S i) (calc self) = inr a.


End Traces.

Arguments str_int : simpl never.
Arguments posix_join : simpl never.
Arguments slab_dir : simpl never.
Arguments log_path_of : simpl never.
Arguments traj_path_of : simpl never.
Arguments relax_error_line : simpl never.

(** ** Conditions and shapes the claims speak of *)

Section Conditions.
Context {ST : Structures} {W : World}.

(** The store behind [db] accepts every write. *)
Definition store_accepts (db : Db) : Prop :=
  forall tr a kv, exists id, world_db_write tr db a kv = inr id.

(** A computation whose only calls are writes to [db], and that stops at
    the first error. *)
Definition only_writes (db : Db) {A} (m : M A) : Prop :=
  forall s, exists evs,
    st_trace (snd (m s)) = (st_trace s ++ evs)%list /\ writes_until db (fst (m s)) evs.


(** A relaxed structure annotated for candidate [i] of a configuration. *)
Definition annotated (B S : Z) (i : nat) (r : RelaxedAdslab) : Prop :=
  rel_bulk_id r = Some B /\ rel_slab_id r = Some S /\ rel_adslab_id r = Some (Z.of_nat i).

(** The placements of the adsorbate with the given policy all succeed. *)
Definition placement_succeeds (adsorbate : Adsorbate) (mode : string)
    (num_sites num_augmentations_per_site : Z) : Prop :=
  forall tr a, exists cs,
    world_place tr a (adsorbate_atoms adsorbate) num_sites num_augmentations_per_site mode
    = inr cs.

(** *** What a store holds after a history of calls

    The handle is the caller's: what it holds after a release is its own
    business.  Two kinds of store are told apart, by what their release
    does with the records accepted since the acquisition. *)

Definition StoreRecord : Type := (Atoms * Tags * Z)%type.

(** The record an event adds to [db]: that of a write [db] accepted. *)
Definition accepted_by (db : Db) (ev : Event) : option StoreRecord :=
  match ev with
  | EDbWrite db' a kv r =>
      match r with
      | inr id => if Nat.eqb db' db then Some (a, kv, id) else None
      | inl _ => None
      end
  | _ => None
  end.

Fixpoint accepted_in (db : Db) (evs : list Event) : list StoreRecord :=
  match evs with
  | [] => []
  | ev :: evs' =>
      match accepted_by db ev with
      | Some r => r :: accepted_in db evs'
      | None => accepted_in db evs'
      end
  end.

(** Modelled from the spec: the record store of the spec's external
    interfaces, which offers [write] and nothing more.  A store that
    keeps every record it accepted: neither acquisition nor release
    touches them. *)
Definition keeping_store (db : Db) (tr : list Event) : list StoreRecord :=
  accepted_in db tr.






(** *** What a run may change in the object store *)

(** Nothing changed: every object is as it was. *)
Definition same_objects (s s' : State) : Prop :=
  st_bulks s' = st_bulks s /\ st_slabs s' = st_slabs s /\ st_cands s' = st_cands s
  /\ st_next s' = st_next s.

(** Only the [db_id] of the bulks in [touched] may differ. *)
Definition only_bulk_ids (touched : list loc) (s s' : State) : Prop :=
  st_slabs s' = st_slabs s /\ st_cands s' = st_cands s /\ st_next s' = st_next s
  /\ forall l, bulk_atoms (st_bulks s' l) = bulk_atoms (st_bulks s l)
               /\ (~ In l touched -> st_bulks s' l = st_bulks s l).

(** Only the [db_id] of the slabs in [touched] may differ. *)
Definition only_slab_ids (touched : list loc) (s s' : State) : Prop :=
  st_bulks s' = st_bulks s /\ st_cands s' = st_cands s /\ st_next s' = st_next s
  /\ forall l, slab_atoms (st_slabs s' l) = slab_atoms (st_slabs s l)
               /\ slab_bulk (st_slabs s' l) = slab_bulk (st_slabs s l)
               /\ (~ In l touched -> st_slabs s' l = st_slabs s l).

(** Only the [db_id] of the candidates in [touched] may differ. *)
Definition only_cand_ids (touched : list loc) (s s' : State) : Prop :=
  st_bulks s' = st_bulks s /\ st_slabs s' = st_slabs s /\ st_next s' = st_next s
  /\ forall l, cand_atoms (st_cands s' l) = cand_atoms (st_cands s l)
               /\ (~ In l touched -> st_cands s' l = st_cands s l).

(** A computation that keeps a relation between the state it starts in
    and the state it ends in, whether it returns or raises. *)
Definition keeps (R : State -> State -> Prop) {A} (m : M A) : Prop :=
  forall s, R s (snd (m s)).

(** A relation on states that computations can be chained under: it
    holds from a state to itself, composes, and ignores the trace. *)
Record chainable (R : State -> State -> Prop) : Prop := {
  chain_refl : forall s, R s s;
  chain_trans : forall s1 s2 s3, R s1 s2 -> R s2 s3 -> R s1 s3;
  chain_emit : forall s ev, R s (snd (emit ev s))
}.

(** *** Kinds of events *)

Definition is_print (ev : Event) : bool :=
  match ev with
  | EPrint _ => true
  | _ => false
  end.

Definition is_makedirs (ev : Event) : bool :=
  match ev with
  | EMakedirs _ _ => true
  | _ => false
  end.

Definition is_db_enter (ev : Event) : bool :=
  match ev with
  | EDbEnter _ => true
  | _ => false
  end.

Definition is_record (ev : Event) : bool :=
  match ev with
  | EDbWrite _ _ _ (inr _) => true
  | _ => false
  end.

(** How many events of a kind a trace holds. *)
Definition count (kind : Event -> bool) (evs : list Event) : nat :=
  length (filter kind evs).

End Conditions.

(** ** Properties *)

Create HintDb writers.

Section Theory.
Context {ST : Structures} {W : World}.

Lemma only_writes_ret db {A} (a : A) : only_writes db (ret a).
Proof.
  intros s. exists []. cbn. rewrite app_nil_r. split; [reflexivity | constructor].
Qed.

Lemma only_writes_raise db {A} (e : exn) : only_writes db (@raise _ A e).
Proof.
  intros s. exists []. cbn. rewrite app_nil_r. split; [reflexivity |].
  exists [], []. repeat split; auto.
Qed.




Lemma only_writes_read_db_id db cls v : only_writes db (read_db_id cls v).
Proof.
  destruct v; cbn; [apply only_writes_ret | apply only_writes_raise].
Qed.

Lemma only_writes_read_attr db {A} name (v : option A) : only_writes db (read_attr name v).
Proof.
  destruct v; cbn; [apply only_writes_ret | apply only_writes_raise].
Qed.

Lemma only_writes_db_write db a kv : only_writes db (db_write db a kv).
Proof.
  intros s. exists [EDbWrite db a kv (world_db_write (st_trace s) db a kv)].
  unfold db_write. destruct (world_db_write (st_trace s) db a kv) as [e | id]; cbn.
  - split; [reflexivity |]. exists [], [EDbWrite db a kv (inl e)].
    repeat split; auto. right. eexists; split; [reflexivity |]. exists a, kv. reflexivity.
  - split; [reflexivity |]. constructor; [| constructor]. exists a, kv, id. reflexivity.
Qed.



#[local] Hint Resolve only_writes_ret only_writes_raise only_writes_read_db_id
  only_writes_read_attr only_writes_db_write : writers.



Lemma upd_same {A} (f : loc -> A) l v : upd f l v l = v.
Proof. unfold upd. rewrite Nat.eqb_refl. reflexivity. Qed.

Lemma upd_other {A} (f : loc -> A) l l' v : l' <> l -> upd f l v l' = f l'.
Proof. intros H. unfold upd. apply Nat.eqb_neq in H. rewrite H. reflexivity. Qed.

(** *** The loop of write_bulks_to_db *)

Lemma write_bulks_loop db (Hdb : store_accepts db) (bulks : list loc) :
  forall s, exists body s',
    for_each bulks (write_bulk_body db) s = (Ok tt, s')
    /\ st_trace s' = (st_trace s ++ body)%list
    /\ st_slabs s' = st_slabs s /\ st_cands s' = st_cands s /\ st_next s' = st_next s
    /\ (forall l, bulk_atoms (st_bulks s' l) = bulk_atoms (st_bulks s l))
    /\ (forall l, ~ In l bulks -> st_bulks s' l = st_bulks s l)
    /\ Forall2 (fun ev l => exists id, ev = EDbWrite db (bulk_atoms (st_bulks s l)) [] (inr id))
         body bulks
    /\ (forall l, In l bulks -> exists id,
          bulk_db_id (st_bulks s' l) = Some id
          /\ In (EDbWrite db (bulk_atoms (st_bulks s l)) [] (inr id)) body).
Proof.
  induction bulks as [| x xs IH]; intros s.
  - exists [], s. cbn. rewrite app_nil_r. repeat split; auto. intros l [].
  - cbn [for_each]. unfold bind at 1. unfold write_bulk_body at 1.
    unfold bind, get_bulk, db_write, set_bulk_db_id.
    destruct (Hdb (st_trace s) (bulk_atoms (st_bulks s x)) []) as [id Hid]. rewrite Hid.
    match goal with |- context [for_each xs _ ?s1] => set (s1' := s1) end.
    destruct (IH s1') as (body & s' & Hrun & Ht & Hs & Hc & Hn & Hat & Hfr & Hall & Hids).
    subst s1'. cbn in *.
    exists (EDbWrite db (bulk_atoms (st_bulks s x)) [] (inr id) :: body), s'.
    rewrite Hrun, Ht, <- app_assoc. cbn.
    assert (Hatoms : forall l, bulk_atoms (upd (st_bulks s) x
                {| bulk_atoms := bulk_atoms (st_bulks s x); bulk_db_id := Some id |} l)
              = bulk_atoms (st_bulks s l)).
    { intros l. unfold upd. destruct (Nat.eqb_spec l x) as [-> |]; reflexivity. }
    repeat split; auto.
    + intros l. rewrite Hat. apply Hatoms.
    + intros l Hl. rewrite Hfr by tauto. apply upd_other. intros ->. tauto.
    + constructor; [eexists; reflexivity |].
      eapply Forall2_impl; [| exact Hall]. cbn. intros ev l (id' & ->).
      exists id'. rewrite Hatoms. reflexivity.
    + intros l Hl. destruct (in_dec Nat.eq_dec l xs) as [Hin | Hnin].
      * destruct (Hids l Hin) as (id' & Hid' & Hev). exists id'. split; [assumption |].
        right. rewrite Hatoms in Hev. exact Hev.
      * destruct Hl as [<- | Hl]; [| contradiction].
        exists id. rewrite Hfr by assumption. rewrite upd_same. cbn. auto.
Qed.


(** *** Loops in general *)

Lemma Forall2_impl_in {A B} (R Q : A -> B -> Prop) (xs : list A) (ys : list B) :
  (forall x y, In x xs -> In y ys -> R x y -> Q x y) ->
  Forall2 R xs ys -> Forall2 Q xs ys.
Proof.
  intros H HR. induction HR as [| x y xs ys Hxy HR IH]; constructor.
  - apply H; [left | left |]; auto.
  - apply IH. intros x' y' Hx Hy. apply H; right; assumption.
Qed.

Lemma for_each_app {A} (xs ys : list A) (body : A -> M unit) s :
  for_each (xs ++ ys) body s = (for_each xs body ;; for_each ys body) s.
Proof.
  revert s. induction xs as [| x xs IH]; intros s; cbn.
  - reflexivity.
  - unfold bind. destruct (body x s) as [[[] | e] s1]; [| reflexivity].
    rewrite IH. reflexivity.
Qed.

Lemma for_each_concat {A} (xss : list (list A)) (body : A -> M unit) s :
  for_each xss (fun xs => for_each xs body) s = for_each (concat xss) body s.
Proof.
  revert s. induction xss as [| xs xss IH]; intros s; cbn.
  - reflexivity.
  - rewrite for_each_app. unfold bind.
    destruct (for_each xs body s) as [[[] | e] s1]; [apply IH | reflexivity].
Qed.

Lemma for_each_map {A B} (f : A -> B) (xs : list A) (body : B -> M unit) s :
  for_each (map f xs) body s = for_each xs (fun x => body (f x)) s.
Proof.
  revert s. induction xs as [| x xs IH]; intros s; cbn.
  - reflexivity.
  - unfold bind. destruct (body (f x) s) as [[[] | e] s1]; [apply IH | reflexivity].
Qed.

Lemma for_each_config_candidates (cfgs : list AdsorbateSlabConfig)
    (body : AdsorbateSlabConfig -> loc -> M unit) s :
  for_each cfgs (fun c => for_each (cfg_atoms_list c) (body c)) s
  = for_each (config_candidates cfgs) (fun p => body (fst p) (snd p)) s.
Proof.
  revert s. induction cfgs as [| c cfgs IH]; intros s; cbn.
  - reflexivity.
  - rewrite for_each_app. unfold bind. rewrite for_each_map. cbn.
    change (fun x : loc => body c x) with (body c).
    destruct (for_each (cfg_atoms_list c) (body c) s) as [[[] | e] s1];
      [apply IH | reflexivity].
Qed.

Lemma with_db_ok db (body : M unit) s s' :
  body (snd (emit (EDbEnter db) s)) = (Ok tt, s') ->
  with_db db body s = (Ok tt, snd (emit (EDbExit db None) s')).
Proof.
  intros H. unfold with_db, bind. cbn in *. rewrite H. reflexivity.
Qed.

(** *** The loop of write_slabs_to_db *)

Lemma write_slabs_loop db (Hdb : store_accepts db) (ls : list loc) :
  forall s,
    (forall l, In l ls -> exists bid,
        bulk_db_id (st_bulks s (slab_bulk (st_slabs s l))) = Some bid) ->
    exists body s',
      for_each ls (write_slab_body db) s = (Ok tt, s')
      /\ st_trace s' = (st_trace s ++ body)%list
      /\ st_bulks s' = st_bulks s /\ st_cands s' = st_cands s /\ st_next s' = st_next s
      /\ (forall l, slab_atoms (st_slabs s' l) = slab_atoms (st_slabs s l)
                    /\ slab_bulk (st_slabs s' l) = slab_bulk (st_slabs s l))
      /\ (forall l, ~ In l ls -> st_slabs s' l = st_slabs s l)
      /\ Forall2 (fun ev l => exists id bid,
             bulk_db_id (st_bulks s (slab_bulk (st_slabs s l))) = Some bid
             /\ ev = EDbWrite db (slab_atoms (st_slabs s l)) (slab_tags bid) (inr id))
           body ls
      /\ (forall l, In l ls -> exists id bid,
            slab_db_id (st_slabs s' l) = Some id
            /\ In (EDbWrite db (slab_atoms (st_slabs s l)) (slab_tags bid) (inr id)) body).
Proof.
  induction ls as [| x xs IH]; intros s Hpar.
  - exists [], s. cbn. rewrite app_nil_r. repeat split; auto. intros l [].
  - cbn [for_each]. unfold bind at 1. unfold write_slab_body at 1.
    unfold bind, get_slab, get_bulk, db_write, set_slab_db_id.
    destruct (Hpar x (or_introl eq_refl)) as [bid Hbid]. rewrite Hbid. cbn [read_db_id ret].
    destruct (Hdb (st_trace s) (slab_atoms (st_slabs s x)) [("bulk_id", TInt bid)])
      as [id Hid]. rewrite Hid.
    match goal with |- context [for_each xs _ ?s1] => set (s1' := s1) end.
    assert (Hkeep : forall l,
               slab_atoms (st_slabs s1' l) = slab_atoms (st_slabs s l)
               /\ slab_bulk (st_slabs s1' l) = slab_bulk (st_slabs s l)).
    { intros l. subst s1'. cbn. unfold upd.
      destruct (Nat.eqb_spec l x) as [-> |]; split; reflexivity. }
    destruct (IH s1') as (body & s' & Hrun & Ht & Hb & Hc & Hn & Hat & Hfr & Hall & Hids).
    { intros l Hl. destruct (Hkeep l) as [_ ->]. subst s1'; cbn. apply Hpar. right; exact Hl. }
    exists (EDbWrite db (slab_atoms (st_slabs s x)) (slab_tags bid) (inr id) :: body), s'.
    rewrite Hrun, Ht. subst s1'. cbn in *. rewrite <- app_assoc. cbn.
    repeat split; auto.
    + rewrite (proj1 (Hat l)). apply Hkeep.
    + rewrite (proj2 (Hat l)). apply Hkeep.
    + intros l Hl. rewrite Hfr by tauto. apply upd_other. intros ->. tauto.
    + constructor; [exists id, bid; split; [assumption | reflexivity] |].
      eapply Forall2_impl; [| exact Hall]. cbn. intros ev l (id' & bid' & Hb' & ->).
      destruct (Hkeep l) as [Ha Hp]. rewrite Ha, Hp in *. exists id', bid'. auto.
    + intros l Hl. destruct (in_dec Nat.eq_dec l xs) as [Hin | Hnin].
      * destruct (Hids l Hin) as (id' & bid' & Hid' & Hev). exists id', bid'.
        split; [assumption |]. right. rewrite (proj1 (Hkeep l)) in Hev. exact Hev.
      * destruct Hl as [<- | Hl]; [| contradiction].
        exists id, bid. rewrite Hfr by assumption. rewrite upd_same. cbn. auto.
Qed.


(** *** The loop of write_adsorbate_slab_configs_to_db *)

Lemma config_ids_some s c B S :
  config_ids s c = Some (B, S) ->
  bulk_db_id (st_bulks s (slab_bulk (st_slabs s (cfg_slab c)))) = Some B
  /\ slab_db_id (st_slabs s (cfg_slab c)) = Some S.
Proof.
  unfold config_ids.
  destruct (bulk_db_id _), (slab_db_id _); intros [=]; subst; auto.
Qed.

Lemma write_cands_loop db (Hdb : store_accepts db) (ps : list (AdsorbateSlabConfig * loc)) :
  forall s,
    (forall p, In p ps -> exists B S, config_ids s (fst p) = Some (B, S)) ->
    exists body s',
      for_each ps (fun p => write_cand_body db (fst p) (snd p)) s = (Ok tt, s')
      /\ st_trace s' = (st_trace s ++ body)%list
      /\ st_bulks s' = st_bulks s /\ st_slabs s' = st_slabs s /\ st_next s' = st_next s
      /\ (forall l, cand_atoms (st_cands s' l) = cand_atoms (st_cands s l))
      /\ (forall l, ~ In l (map snd ps) -> st_cands s' l = st_cands s l)
      /\ Forall2 (fun ev p => exists id B S,
             config_ids s (fst p) = Some (B, S)
             /\ ev = EDbWrite db (cand_atoms (st_cands s (snd p))) (config_tags B S) (inr id))
           body ps
      /\ (forall l, In l (map snd ps) -> exists id c B S,
            In (c, l) ps /\ config_ids s c = Some (B, S)
            /\ cand_db_id (st_cands s' l) = Some id
            /\ In (EDbWrite db (cand_atoms (st_cands s l)) (config_tags B S) (inr id)) body).
Proof.
  induction ps as [| [c x] ps IH]; intros s Hids.
  - exists [], s. cbn. rewrite app_nil_r. repeat split; auto. intros l [].
  - cbn [for_each fst snd]. unfold bind at 1. unfold write_cand_body at 1.
    unfold bind, get_cand, get_slab, get_bulk, db_write, set_cand_db_id.
    destruct (Hids (c, x) (or_introl eq_refl)) as (B & S & HBS). cbn [fst] in HBS.
    destruct (config_ids_some _ _ _ _ HBS) as [HB HS]. rewrite HB. cbn [read_db_id ret].
    rewrite HS. cbn [read_db_id ret].
    destruct (Hdb (st_trace s) (cand_atoms (st_cands s x))
                [("bulk_id", TInt B); ("slab_id", TInt S); ("relaxed", TBool false)])
      as [id Hid]. rewrite Hid.
    match goal with |- context [for_each ps _ ?s1] => set (s1' := s1) end.
    assert (Hkeep : forall l, cand_atoms (st_cands s1' l) = cand_atoms (st_cands s l)).
    { intros l. subst s1'. cbn. unfold upd. destruct (Nat.eqb_spec l x) as [-> |]; reflexivity. }
    assert (Hcfg : forall c', config_ids s1' c' = config_ids s c') by reflexivity.
    destruct (IH s1') as (body & s' & Hrun & Ht & Hb & Hsl & Hn & Hat & Hfr & Hall & Hset).
    { intros p Hp. rewrite Hcfg. apply Hids. right; exact Hp. }
    exists (EDbWrite db (cand_atoms (st_cands s x)) (config_tags B S) (inr id) :: body), s'.
    rewrite Hrun, Ht. subst s1'. cbn in Hat, Hfr, Hb, Hsl, Hn, Hkeep |- *.
    rewrite <- app_assoc. cbn.
    repeat split; auto.
    + intros l. rewrite Hat. apply Hkeep.
    + intros l Hl. rewrite Hfr by tauto. apply upd_other. intros ->. tauto.
    + constructor; [exists id, B, S; split; [assumption | reflexivity] |].
      eapply Forall2_impl; [| exact Hall]. cbn. intros ev p (id' & B' & S' & Hc' & ->).
      rewrite Hcfg in Hc'. rewrite Hkeep. exists id', B', S'. auto.
    + intros l Hl. destruct (in_dec Nat.eq_dec l (map snd ps)) as [Hin | Hnin].
      * destruct (Hset l Hin) as (id' & c' & B' & S' & Hcl & Hc' & Hid' & Hev).
        exists id', c', B', S'. rewrite Hcfg in Hc'. cbn in Hev. rewrite Hkeep in Hev.
        repeat split; auto.
      * destruct Hl as [<- | Hl]; [| contradiction]. cbn [snd].
        exists id, c, B, S. rewrite Hfr by assumption. rewrite upd_same. cbn. auto.
Qed.

(** *** The loop of write_adsorbate_slabs_to_db *)

Lemma write_adslabs_loop db (Hdb : store_accepts db) B S (P : nat -> Atoms -> Prop)
    (rs : list RelaxedAdslab) :
  forall (ixs : list nat) s,
    Forall2 (fun r i => annotated B S i r /\ P i (rel_atoms r)) rs ixs ->
    exists body s',
      for_each rs (write_adslab_body db) s = (Ok tt, s')
      /\ st_trace s' = (st_trace s ++ body)%list
      /\ st_bulks s' = st_bulks s /\ st_slabs s' = st_slabs s /\ st_cands s' = st_cands s
      /\ st_next s' = st_next s
      /\ Forall2 (fun ev i => exists a id,
             ev = EDbWrite db a (relaxed_tags B S i) (inr id) /\ P i a) body ixs.
Proof.
  induction rs as [| r rs IH]; intros ixs s Hann; inversion Hann; subst.
  - exists [], s. cbn. rewrite app_nil_r. repeat split; constructor.
  - match goal with H : annotated _ _ _ r /\ _ |- _ => destruct H as ((HB & HS & Hi) & HP) end.
    cbn [for_each]. unfold bind at 1. unfold write_adslab_body at 1.
    rewrite HB, HS, Hi. unfold bind, read_attr, ret, db_write.
    destruct (Hdb (st_trace s) (rel_atoms r)
                [("bulk_id", TInt B); ("slab_id", TInt S);
                 ("adslab_id", TInt (Z.of_nat y)); ("relaxed", TBool true)]) as [id Hid].
    rewrite Hid.
    match goal with |- context [for_each rs _ ?s1] =>
      destruct (IH l' s1) as (body & s' & Hrun & Ht & Hb & Hsl & Hc & Hn & H1) end.
    { assumption. }
    cbn [st_trace st_bulks st_slabs st_cands st_next] in Ht, Hb, Hsl, Hc, Hn.
    exists (EDbWrite db (rel_atoms r) (relaxed_tags B S y) (inr id) :: body), s'.
    rewrite Hrun, Ht. rewrite <- app_assoc. cbn [app]. repeat split; auto.
    constructor; [| assumption]. exists (rel_atoms r), id. auto.
Qed.


(** *** The writers in terms of their loop bodies *)

Lemma write_bulks_to_db_eq bulks db :
  write_bulks_to_db bulks db = with_db db (for_each bulks (write_bulk_body db)).
Proof. reflexivity. Qed.

Lemma write_slabs_to_db_eq slabs db s :
  write_slabs_to_db slabs db s = with_db db (for_each (concat slabs) (write_slab_body db)) s.
Proof.
  unfold write_slabs_to_db, with_db, bind.
  destruct (emit (EDbEnter db) s) as [[[] | e] s1]; [| reflexivity].
  change (fun slab_list : list loc => for_each slab_list _)
    with (fun slab_list : list loc => for_each slab_list (write_slab_body db)).
  rewrite for_each_concat. reflexivity.
Qed.

Lemma write_adsorbate_slab_configs_to_db_eq cfgs db s :
  write_adsorbate_slab_configs_to_db cfgs db s
  = with_db db (for_each (config_candidates cfgs)
                  (fun p => write_cand_body db (fst p) (snd p))) s.
Proof.
  unfold write_adsorbate_slab_configs_to_db, with_db, bind.
  destruct (emit (EDbEnter db) s) as [[[] | e] s1]; [| reflexivity].
  rewrite <- for_each_config_candidates. reflexivity.
Qed.

Lemma write_adsorbate_slabs_to_db_eq adslabs db :
  write_adsorbate_slabs_to_db adslabs db = with_db db (for_each adslabs (write_adslab_body db)).
Proof. reflexivity. Qed.

Lemma in_config_candidates (cfgs : list AdsorbateSlabConfig) c l :
  In (c, l) (config_candidates cfgs) <-> In c cfgs /\ In l (cfg_atoms_list c).
Proof.
  unfold config_candidates. rewrite in_flat_map. split.
  - intros (c' & Hc' & Hin). apply in_map_iff in Hin. destruct Hin as (l' & [= <- <-] & Hl).
    auto.
  - intros [Hc Hl]. exists c. split; [assumption |]. apply in_map. assumption.
Qed.


(** ** The claims about the database writers *)









(** C6. Bulks are written, then slabs whose parent bulks are among them.
    Both writes return; every slab record carries as [bulk_id] the id
    that a record of the bulk write assigned to the parent bulk of that
    slab and that the parent bulk now holds, every bulk holds an id that
    the bulk write assigned to it, and every slab holds an id that the
    slab write assigned to it. *)
Theorem C6_slab_records_carry_bulk_ids (bulk_db slab_db : Db)
    (bulks : list loc) (slabs : list (list loc)) (s : State) :
  store_accepts bulk_db ->
  store_accepts slab_db ->
  (forall slab, In slab (concat slabs) -> In (slab_bulk (st_slabs s slab)) bulks) ->
  exists bulk_records slab_records s',
    (write_bulks_to_db bulks bulk_db ;; write_slabs_to_db slabs slab_db) s = (Ok tt, s')
    /\ st_trace s'
       = (st_trace s ++ EDbEnter bulk_db :: bulk_records
            ++ EDbExit bulk_db None :: EDbEnter slab_db :: slab_records
            ++ [EDbExit slab_db None])%list
    /\ (forall bulk, In bulk bulks -> exists id,
          bulk_db_id (st_bulks s' bulk) = Some id
          /\ In (EDbWrite bulk_db (bulk_atoms (st_bulks s bulk)) [] (inr id)) bulk_records)
    /\ Forall2 (fun ev slab => exists id bid,
           ev = EDbWrite slab_db (slab_atoms (st_slabs s slab)) (slab_tags bid) (inr id)
           /\ bulk_db_id (st_bulks s' (slab_bulk (st_slabs s' slab))) = Some bid
           /\ In (EDbWrite bulk_db (bulk_atoms (st_bulks s (slab_bulk (st_slabs s slab))))
                    [] (inr bid)) bulk_records)
         slab_records (concat slabs)
    /\ (forall slab, In slab (concat slabs) -> exists id bid,
          slab_db_id (st_slabs s' slab) = Some id
          /\ In (EDbWrite slab_db (slab_atoms (st_slabs s slab)) (slab_tags bid) (inr id))
               slab_records).
Proof.
  intros Hb Hs Hpar.
  destruct (write_bulks_loop bulk_db Hb bulks (snd (emit (EDbEnter bulk_db) s)))
    as (body1 & s1 & Hrun1 & Ht1 & Hsl1 & Hc1 & Hn1 & Hat1 & Hfr1 & Hall1 & Hids1).
  cbn in Ht1, Hsl1, Hc1, Hn1, Hat1, Hfr1, Hall1, Hids1.
  set (s1x := snd (emit (EDbExit bulk_db None) s1)).
  assert (Hparent : forall slab, In slab (concat slabs) -> exists bid,
             bulk_db_id (st_bulks s1 (slab_bulk (st_slabs s slab))) = Some bid
             /\ In (EDbWrite bulk_db (bulk_atoms (st_bulks s (slab_bulk (st_slabs s slab))))
                      [] (inr bid)) body1).
  { intros slab Hin. apply Hids1, Hpar, Hin. }
  destruct (write_slabs_loop slab_db Hs (concat slabs) (snd (emit (EDbEnter slab_db) s1x)))
    as (body2 & s2 & Hrun2 & Ht2 & Hb2 & Hc2 & Hn2 & Hat2 & Hfr2 & Hall2 & Hids2).
  { intros l Hl. cbn. rewrite Hsl1. destruct (Hparent l Hl) as (bid & Hbid & _). eauto. }
  cbn in Ht2, Hb2, Hc2, Hn2, Hat2, Hfr2, Hall2, Hids2.
  rewrite Hsl1 in Hat2, Hall2, Hids2.
  exists body1, body2, (snd (emit (EDbExit slab_db None) s2)).
  split; [| split; [| split; [| split]]].
  - unfold bind. rewrite write_bulks_to_db_eq, (with_db_ok _ _ _ _ Hrun1).
    fold s1x. rewrite write_slabs_to_db_eq. apply with_db_ok. exact Hrun2.
  - cbn. rewrite Ht2, Ht1. repeat (rewrite <- app_assoc; cbn). reflexivity.
  - intros bulk Hin. cbn. rewrite Hb2. apply Hids1, Hin.
  - eapply Forall2_impl_in; [| exact Hall2]. cbn beta.
    intros ev slab _ Hin (id & bid & Hbid & ->).
    destruct (Hparent slab Hin) as (bid' & Hbid' & Hev).
    rewrite Hbid' in Hbid. injection Hbid as <-.
    exists id, bid'. cbn. rewrite Hb2. rewrite (proj2 (Hat2 slab)). auto.
  - intros slab Hin. cbn. apply Hids2, Hin.
Qed.


(** C7. For configurations whose slabs and parent bulks have their ids,
    the configuration writer returns after writing one record per
    candidate structure of every configuration, in order, each tagged
    with the parent bulk's id, the parent slab's id and [relaxed=False];
    afterwards every candidate holds an id that the store returned for a
    record of that candidate. *)
Theorem C7_configs_written (db : Db) (cfgs : list AdsorbateSlabConfig) (s : State) :
  store_accepts db ->
  (forall c, In c cfgs -> exists B S, config_ids s c = Some (B, S)) ->
  exists records s',
    write_adsorbate_slab_configs_to_db cfgs db s = (Ok tt, s')
    /\ st_trace s' = (st_trace s ++ EDbEnter db :: records ++ [EDbExit db None])%list
    /\ Forall2 (fun ev p => exists id B S,
           config_ids s (fst p) = Some (B, S)
           /\ ev = EDbWrite db (cand_atoms (st_cands s (snd p))) (config_tags B S) (inr id))
         records (config_candidates cfgs)
    /\ (forall c l, In c cfgs -> In l (cfg_atoms_list c) -> exists id c' B S,
          In c' cfgs /\ In l (cfg_atoms_list c') /\ config_ids s c' = Some (B, S)
          /\ cand_db_id (st_cands s' l) = Some id
          /\ In (EDbWrite db (cand_atoms (st_cands s l)) (config_tags B S) (inr id)) records).
Proof.
  intros Hdb Hids.
  destruct (write_cands_loop db Hdb (config_candidates cfgs) (snd (emit (EDbEnter db) s)))
    as (body & s1 & Hrun & Ht & Hb & Hsl & Hn & Hat & Hfr & Hall & Hset).
  { intros [c l] Hin. apply in_config_candidates in Hin. apply Hids, Hin. }
  cbn in Ht, Hb, Hsl, Hn, Hat, Hfr, Hall, Hset.
  exists body, (snd (emit (EDbExit db None) s1)).
  split; [| split; [| split]].
  - rewrite write_adsorbate_slab_configs_to_db_eq. apply with_db_ok. exact Hrun.
  - cbn. rewrite Ht. repeat (rewrite <- app_assoc; cbn). reflexivity.
  - exact Hall.
  - intros c l Hc Hl.
    destruct (Hset l) as (id & c' & B & S & Hin & Hc' & Hid & Hev).
    { apply in_map_iff. exists (c, l). split; [reflexivity |].
      apply in_config_candidates. auto. }
    apply in_config_candidates in Hin. exists id, c', B, S. cbn. tauto.
Qed.


(** ** Relaxation *)

Lemma filter_skip_length (k n j : nat) :
  length (filter (fun i => negb (Nat.eqb i k)) (seq j n))
  = if (Nat.leb j k && Nat.ltb k (j + n))%bool then n - 1 else n.
Proof.
  revert j. induction n as [| n IH]; intros j; cbn [seq filter].
  - destruct (Nat.leb_spec j k), (Nat.ltb_spec k (j + 0)); cbn; lia.
  - specialize (IH (S j)).
    destruct (Nat.eqb_spec j k) as [-> | Hne]; cbn [negb length].
    + rewrite IH.
      destruct (Nat.leb_spec (S k) k); [lia |].
      destruct (Nat.leb_spec k k); [| lia].
      destruct (Nat.ltb_spec k (k + S n)); [| lia]. cbn. lia.
    + rewrite IH.
      destruct (Nat.leb_spec (S j) k), (Nat.leb_spec j k),
               (Nat.ltb_spec k (S j + n)), (Nat.ltb_spec k (j + S n)); cbn; lia.
Qed.

Lemma map_fst_combine_seq {A} (xs : list A) j :
  map fst (combine (seq j (length xs)) xs) = seq j (length xs).
Proof.
  revert j. induction xs as [| x xs IH]; intros j; cbn; [reflexivity |].
  rewrite IH. reflexivity.
Qed.

Lemma map_fst_enumerate {A} (xs : list A) : map fst (enumerate xs) = seq 0 (length xs).
Proof. apply map_fst_combine_seq. Qed.




Lemma relax_candidates_partial (self : CatalystSystem) p B S ads k e
    (Hp : path self = Some p) (todo : list (nat * loc)) :
  forall (all : list (nat * loc)) acc s0 s,
    st_cands s = st_cands s0 ->
    incl todo all ->
    only_candidate_fails s0 self p B S k e all ->
    exists new s',
      relax_candidates self B S ads todo acc s = (Ok (acc ++ new)%list, s')
      /\ st_trace s'
         = (st_trace s ++ flat_map (candidate_events s0 self p B S k e) todo)%list
      /\ st_bulks s' = st_bulks s /\ st_slabs s' = st_slabs s /\ st_cands s' = st_cands s
      /\ st_next s' = st_next s
      /\ Forall2 (fun r i => annotated B S i r
                             /\ relaxed_from s0 self p B S all i (rel_atoms r))
           new (filter (fun i => negb (Nat.eqb i k)) (map fst todo)).
Proof.
  induction todo as [| [i l] todo IH]; intros all acc s0 s Hc0 Hincl Hw.
  - exists [], s. cbn. rewrite !app_nil_r. repeat split; auto.
  - assert (Hin : In (i, l) all) by (apply Hincl; left; reflexivity).
    assert (Hincl' : incl todo all) by (intros x Hx; apply Hincl; right; exact Hx).
    cbn [relax_candidates]. unfold bind at 1. unfold relax_candidate.
    rewrite Hp. unfold os_path_join, bind, ret, try_except, calculate_energy_of_slab,
      bind, get_cand, print, emit. cbn [snd].
    fold (traj_path_of p B S i). fold (log_path_of p B S i).
    fold (relax_error_line B S i).
    pose proof (Hw (st_trace s) i l Hin) as Hr. rewrite <- Hc0 in Hr.
    cbn [flat_map map filter fst]. unfold candidate_events at 1, relax_call. cbn [fst snd].
    rewrite <- Hc0.
    destruct (Nat.eqb_spec i k) as [-> | Hne]; cbn [negb].
    + rewrite Hr.
      match goal with |- context [relax_candidates _ _ _ _ todo ?acc1 ?s1] =>
        destruct (IH all acc1 s0 s1) as (new & s' & Hrun & Ht & Hb & Hsl & Hc & Hn & Hf) end;
        [exact Hc0 | exact Hincl' | exact Hw |].
      cbn [st_trace st_bulks st_slabs st_cands st_next] in Ht, Hb, Hsl, Hc, Hn.
      exists new, s'. rewrite Hrun, Ht.
      rewrite <- !app_assoc. cbn [app]. repeat split; auto.
    + destruct Hr as [a Hr]. rewrite Hr.
      match goal with |- context [relax_candidates _ _ _ _ todo ?acc1 ?s1] =>
        destruct (IH all acc1 s0 s1) as (new & s' & Hrun & Ht & Hb & Hsl & Hc & Hn & Hf) end;
        [exact Hc0 | exact Hincl' | exact Hw |].
      cbn [st_trace st_bulks st_slabs st_cands st_next] in Ht, Hb, Hsl, Hc, Hn.
      eexists (_ :: new), s'. rewrite Hrun, Ht.
      rewrite <- !app_assoc. cbn [app]. repeat split; auto.
      constructor; [| exact Hf]. split; [repeat split |].
      exists (st_trace s), l. rewrite <- Hc0. auto.
Qed.


Lemma relax_config_start (self : CatalystSystem) db cfg p B S s
    (Hp : path self = Some p) (Hids : config_ids s cfg = Some (B, S)) :
  relax_config self db cfg s
  = (os_makedirs (posix_join p (slab_dir B S)) true ;;
     relaxed_adslabs <- relax_candidates self B S
                          (get_chemical_formula (adsorbate_atoms (cfg_adsorbate cfg)))
                          (enumerate (cfg_atoms_list cfg)) [] ;;
     write_adsorbate_slabs_to_db relaxed_adslabs db) s.
Proof.
  destruct (config_ids_some _ _ _ _ Hids) as [HB HS].
  unfold relax_config. unfold bind at 1 2. unfold get_slab at 1, get_bulk at 1.
  rewrite HB. cbn [read_db_id]. unfold bind at 1, ret at 1. unfold bind at 1, get_slab at 1.
  rewrite HS. cbn [read_db_id]. unfold bind at 1, ret at 1.
  rewrite Hp. cbn [os_path_join]. unfold bind at 1, ret at 1. reflexivity.
Qed.

Lemma relax_config_run (self : CatalystSystem) db cfg p B S s
    (Hp : path self = Some p) (Hids : config_ids s cfg = Some (B, S)) :
  relax_config self db cfg s
  = match world_makedirs (st_trace s) (posix_join p (slab_dir B S)) true with
    | Some e => (Raise e, snd (emit (EMakedirs (posix_join p (slab_dir B S)) true) s))
    | None =>
        match relax_candidates self B S
                (get_chemical_formula (adsorbate_atoms (cfg_adsorbate cfg)))
                (enumerate (cfg_atoms_list cfg)) []
                (snd (emit (EMakedirs (posix_join p (slab_dir B S)) true) s)) with
        | (Ok relaxed_adslabs, s2) => write_adsorbate_slabs_to_db relaxed_adslabs db s2
        | (Raise e, s2) => (Raise e, s2)
        end
    end.
Proof.
  rewrite (relax_config_start _ _ _ _ _ _ _ Hp Hids).
  unfold bind, os_makedirs.
  destruct (world_makedirs (st_trace s) (posix_join p (slab_dir B S)) true); reflexivity.
Qed.

Lemma relax_adsorbate_slabs_reaches (self : CatalystSystem) db pre cfg post s0 s
    (Hcfgs : adsorbate_slab_configs self = Some (pre ++ cfg :: post)%list)
    (Hpre : for_each pre (relax_config self db) s0 = (Ok tt, s)) :
  relax_adsorbate_slabs self db s0
  = (relax_config self db cfg ;; for_each post (relax_config self db)) s.
Proof.
  unfold relax_adsorbate_slabs. rewrite Hcfgs, for_each_app.
  unfold bind at 1. rewrite Hpre. reflexivity.
Qed.

(** ** The claims about relaxation *)

(** C1. The loop of [relax_adsorbate_slabs] reaches a configuration with
    ids [B] and [S] whose candidate [k] fails to relax, with [e], while
    every other candidate relaxes.  Then the turn of that configuration
    returns and the loop goes on; the turn calls the relaxation routine
    for every candidate in order, prints the failure of candidate [k]
    with [B], [S] and [k] right after its call, and then writes, in a
    single acquisition of the store, one record per other candidate:
    T - 1 records, the one at each index [i <> k] being the relaxed
    structure of candidate [i], tagged with [B], [S], [i] and
    [relaxed=True]. *)
Theorem C1_one_candidate_fails (self : CatalystSystem) (db : Db) (p : string)
    (pre post : list AdsorbateSlabConfig) (cfg : AdsorbateSlabConfig)
    (B S : Z) (k : nat) (e : exn) (s0 s : State) :
  path self = Some p ->
  adsorbate_slab_configs self = Some (pre ++ cfg :: post)%list ->
  for_each pre (relax_config self db) s0 = (Ok tt, s) ->
  config_ids s cfg = Some (B, S) ->
  k < length (cfg_atoms_list cfg) ->
  world_makedirs (st_trace s) (posix_join p (slab_dir B S)) true = None ->
  store_accepts db ->
  only_candidate_fails s self p B S k e (enumerate (cfg_atoms_list cfg)) ->
  exists records s1,
    relax_adsorbate_slabs self db s0 = for_each post (relax_config self db) s1
    /\ st_trace s1
       = (st_trace s ++ EMakedirs (posix_join p (slab_dir B S)) true
            :: flat_map (candidate_events s self p B S k e) (enumerate (cfg_atoms_list cfg))
            ++ EDbEnter db :: records ++ [EDbExit db None])%list
    /\ length records = length (cfg_atoms_list cfg) - 1
    /\ Forall2 (fun ev i => exists a id,
           ev = EDbWrite db a (relaxed_tags B S i) (inr id)
           /\ relaxed_from s self p B S (enumerate (cfg_atoms_list cfg)) i a)
         records
         (filter (fun i => negb (Nat.eqb i k)) (seq 0 (length (cfg_atoms_list cfg)))).
Proof.
  intros Hp Hcfgs Hpre Hids Hk Hmk Hdb Hfail.
  set (s_mk := snd (emit (EMakedirs (posix_join p (slab_dir B S)) true) s)).
  destruct (relax_candidates_partial self p B S
              (get_chemical_formula (adsorbate_atoms (cfg_adsorbate cfg))) k e Hp
              (enumerate (cfg_atoms_list cfg)) (enumerate (cfg_atoms_list cfg)) [] s s_mk)
    as (new & s2 & Hrun2 & Ht2 & Hb2 & Hsl2 & Hc2 & Hn2 & Hann);
    [reflexivity | apply incl_refl | exact Hfail |].
  rewrite map_fst_enumerate in Hann. cbn [app] in Hrun2.
  destruct (write_adslabs_loop db Hdb B S
              (relaxed_from s self p B S (enumerate (cfg_atoms_list cfg))) new _
              (snd (emit (EDbEnter db) s2)) Hann)
    as (records & s3 & Hrun3 & Ht3 & Hb3 & Hsl3 & Hc3 & Hn3 & Hrec).
  exists records, (snd (emit (EDbExit db None) s3)).
  split; [| split; [| split]].
  - rewrite (relax_adsorbate_slabs_reaches _ _ _ _ _ _ _ Hcfgs Hpre).
    unfold bind at 1. rewrite (relax_config_start _ _ _ _ _ _ _ Hp Hids).
    unfold bind at 1. unfold os_makedirs. rewrite Hmk. fold s_mk.
    unfold bind at 1. rewrite Hrun2.
    rewrite write_adsorbate_slabs_to_db_eq, (with_db_ok _ _ _ _ Hrun3). reflexivity.
  - cbn [snd emit st_trace]. rewrite Ht3. cbn [snd emit st_trace]. rewrite Ht2.
    subst s_mk. cbn [snd emit st_trace]. rewrite <- !app_assoc. cbn [app]. reflexivity.
  - rewrite (Forall2_length Hrec), filter_skip_length.
    replace (Nat.leb 0 k) with true by (symmetry; apply Nat.leb_le; lia).
    replace (Nat.ltb k (0 + length (cfg_atoms_list cfg))) with true
      by (symmetry; apply Nat.ltb_lt; lia).
    reflexivity.
  - exact Hrec.
Qed.


Lemma string_app_assoc (a b c : string) : ((a ++ b) ++ c)%string = (a ++ b ++ c)%string.
Proof.
  induction a as [| ch a IH]; cbn; [reflexivity | rewrite IH; reflexivity].
Qed.




(** ** Construction *)

Lemma map_m_new_slab (b : loc) (structures : list Atoms) :
  forall s, exists s',
    map_m (new_slab b) structures s = (Ok (seq (st_next s) (length structures)), s')
    /\ st_trace s' = st_trace s /\ st_bulks s' = st_bulks s /\ st_cands s' = st_cands s
    /\ st_next s' = st_next s + length structures
    /\ (forall l, l < st_next s -> st_slabs s' l = st_slabs s l)
    /\ map (st_slabs s') (seq (st_next s) (length structures))
       = map (fun a => {| slab_atoms := a; slab_bulk := b; slab_db_id := None |}) structures.
Proof.
  induction structures as [| a l IH]; intros s.
  - exists s. cbn. rewrite Nat.add_0_r. repeat split; auto.
  - cbn [map_m]. unfold bind at 1. unfold new_slab at 1. cbn beta iota. unfold bind at 1.
    match goal with |- context [map_m _ l ?s1] =>
      destruct (IH s1) as (s' & Hrun & Ht & Hb & Hc & Hn & Hold & Hnew) end.
    cbn [st_trace st_bulks st_slabs st_cands st_next] in Hrun, Ht, Hb, Hc, Hn, Hold, Hnew.
    exists s'. rewrite Hrun. cbn [ret length seq map].
    repeat split; auto.
    + rewrite Hn. lia.
    + intros l0 Hl0. rewrite Hold by lia. apply upd_other. lia.
    + rewrite Hnew. f_equal. rewrite Hold by lia. apply upd_same.
Qed.

Lemma map_m_new_cand (structures : list Atoms) :
  forall s, exists ls s',
    map_m new_cand structures s = (Ok ls, s')
    /\ st_trace s' = st_trace s /\ st_bulks s' = st_bulks s /\ st_slabs s' = st_slabs s
    /\ length ls = length structures.
Proof.
  induction structures as [| a l IH]; intros s.
  - exists [], s. cbn. repeat split; auto.
  - cbn [map_m]. unfold bind at 1. unfold new_cand at 1. cbn beta iota. unfold bind at 1.
    match goal with |- context [map_m _ l ?s1] =>
      destruct (IH s1) as (ls & s' & Hrun & Ht & Hb & Hsl & Hlen) end.
    cbn [st_trace st_bulks st_slabs st_cands st_next] in Hrun, Ht, Hb, Hsl.
    exists (st_next s :: ls), s'. rewrite Hrun. cbn [ret length].
    repeat split; auto.
Qed.

Lemma map_m_configs adsorbate mode ns na (Hpl : placement_succeeds adsorbate mode ns na)
    (sl : list loc) :
  forall s, exists cfgs s',
    map_m (fun slab => slab_to_adsorbate_slab_config slab adsorbate mode ns na) sl s
    = (Ok cfgs, s')
    /\ st_bulks s' = st_bulks s /\ st_slabs s' = st_slabs s
    /\ st_trace s'
       = (st_trace s
          ++ map (fun l => EPlace (slab_atoms (st_slabs s l)) (adsorbate_atoms adsorbate)
                             ns na mode) sl)%list
    /\ map cfg_slab cfgs = sl
    /\ Forall (fun c => cfg_adsorbate c = adsorbate) cfgs.
Proof.
  induction sl as [| x sl IH]; intros s.
  - exists [], s. cbn. rewrite app_nil_r. repeat split; auto.
  - cbn [map_m]. unfold bind at 1.
    unfold slab_to_adsorbate_slab_config at 1, new_AdsorbateSlabConfig.
    unfold bind at 1, get_slab at 1. unfold bind at 1.
    destruct (Hpl (st_trace s) (slab_atoms (st_slabs s x))) as [cs Hcs]. rewrite Hcs.
    unfold bind at 1.
    match goal with |- context [map_m new_cand cs ?s1] =>
      destruct (map_m_new_cand cs s1) as (ls & s2 & Hrun2 & Ht2 & Hb2 & Hsl2 & _) end.
    rewrite Hrun2. unfold ret at 1.
    destruct (IH s2) as (cfgs & s' & Hrun & Hb & Hsl & Ht & Hmap & Hads).
    unfold bind at 1. rewrite Hrun. unfold ret at 1.
    eexists (_ :: cfgs), s'. split; [reflexivity |].
    cbn [snd emit st_bulks st_slabs st_trace] in Hb2, Hsl2, Ht2.
    repeat split.
    + rewrite Hb, Hb2. reflexivity.
    + rewrite Hsl, Hsl2. reflexivity.
    + rewrite Ht, Ht2, Hsl2. cbn [map]. rewrite <- app_assoc. reflexivity.
    + cbn [map cfg_slab]. rewrite Hmap. reflexivity.
    + constructor; [reflexivity | exact Hads].
Qed.


Lemma bulk_to_slabs_ok (b : loc) (structures : list Atoms) s :
  world_slabs (st_trace s) (bulk_atoms (st_bulks s b)) = inr structures ->
  exists s',
    bulk_to_slabs b s = (Ok (Some (seq (st_next s) (length structures))), s')
    /\ st_trace s' = (st_trace s ++ [ESlabs (bulk_atoms (st_bulks s b))])%list
    /\ st_bulks s' = st_bulks s
    /\ map (st_slabs s') (seq (st_next s) (length structures))
       = map (fun a => {| slab_atoms := a; slab_bulk := b; slab_db_id := None |}) structures.
Proof.
  intros Hw. unfold bulk_to_slabs, try_except, Slab_from_bulk_get_all_slabs.
  unfold bind at 1 2. unfold get_bulk at 1. unfold bind at 1. rewrite Hw.
  match goal with |- context [map_m _ structures ?s1] =>
    destruct (map_m_new_slab b structures s1) as (s' & Hrun & Ht & Hb & _ & _ & _ & Hnew) end.
  rewrite Hrun. exists s'. cbn [snd emit st_trace st_bulks st_next] in Ht, Hb, Hnew |- *.
  repeat split; auto.
Qed.

Lemma bulk_to_slabs_fail (b : loc) (e : exn) s :
  world_slabs (st_trace s) (bulk_atoms (st_bulks s b)) = inl e ->
  exists s',
    bulk_to_slabs b s = (Ok None, s')
    /\ st_trace s'
       = (st_trace s ++ [ESlabs (bulk_atoms (st_bulks s b));
                         EPrint "Error creating slab from bulk"; EPrint (exn_str e)])%list
    /\ st_bulks s' = st_bulks s /\ st_slabs s' = st_slabs s /\ st_cands s' = st_cands s.
Proof.
  intros Hw. unfold bulk_to_slabs, try_except, Slab_from_bulk_get_all_slabs.
  unfold bind at 1 2. unfold get_bulk at 1. unfold bind at 1. rewrite Hw.
  eexists. split; [reflexivity |]. cbn. rewrite <- !app_assoc. repeat split; reflexivity.
Qed.

Lemma init_unfold bulk_structure adsorbate mode ns na s :
  init bulk_structure adsorbate mode ns na s
  = match bulk_to_slabs (st_next s) (snd (new_bulk bulk_structure s)) with
    | (Ok slabs, s1) =>
        match truthy_slabs slabs with
        | Some l =>
            (configs <- map_m (fun slab => slab_to_adsorbate_slab_config slab adsorbate mode
                                             ns na) l ;;
             ret {| path := None; calc := None; bulk := st_next s; slabs := slabs;
                    adsorbate_slab_configs := Some configs |}) s1
        | None =>
            (Ok {| path := None; calc := None; bulk := st_next s; slabs := slabs;
                   adsorbate_slab_configs := None |}, s1)
        end
    | (Raise e, s1) => (Raise e, s1)
    end.
Proof.
  unfold init. unfold bind at 1. unfold new_bulk at 1. cbn beta iota. unfold bind at 1.
  cbn [snd new_bulk].
  destruct (bulk_to_slabs _ _) as [[sl | e] s1]; [| reflexivity].
  destruct (truthy_slabs sl); reflexivity.
Qed.

(** ** The claims about construction *)

(** C3. When the enumeration returns a non-empty list of N slab
    structures and the placements succeed, construction returns a system
    that holds N slabs, the i-th being the i-th enumerated structure cut
    from the system's bulk, and N configurations, the i-th referencing the
    i-th slab; the adsorbate was placed once per slab, on the slabs in
    enumeration order. *)
Theorem C3_one_config_per_slab (bulk_structure : Atoms) (adsorbate : Adsorbate) (mode : string)
    (num_sites num_augmentations_per_site : Z) (structures : list Atoms) (s : State) :
  world_slabs (st_trace s) bulk_structure = inr structures ->
  structures <> [] ->
  placement_succeeds adsorbate mode num_sites num_augmentations_per_site ->
  exists self s' sl cfgs,
    init bulk_structure adsorbate mode num_sites num_augmentations_per_site s = (Ok self, s')
    /\ slabs self = Some sl
    /\ adsorbate_slab_configs self = Some cfgs
    /\ length sl = length structures
    /\ length cfgs = length structures
    /\ map cfg_slab cfgs = sl
    /\ NoDup sl
    /\ map (fun l => slab_atoms (st_slabs s' l)) sl = structures
    /\ Forall (fun l => slab_bulk (st_slabs s' l) = bulk self) sl
    /\ bulk_atoms (st_bulks s' (bulk self)) = bulk_structure
    /\ Forall (fun c => cfg_adsorbate c = adsorbate) cfgs
    /\ st_trace s'
       = (st_trace s ++ ESlabs bulk_structure
            :: map (fun a => EPlace a (adsorbate_atoms adsorbate) num_sites
                               num_augmentations_per_site mode) structures)%list.
Proof.
  intros Hw Hne Hpl. rewrite init_unfold.
  set (s0 := snd (new_bulk bulk_structure s)).
  assert (Hb0 : bulk_atoms (st_bulks s0 (st_next s)) = bulk_structure).
  { subst s0. cbn. rewrite upd_same. reflexivity. }
  destruct (bulk_to_slabs_ok (st_next s) structures s0) as (s1 & Hrun1 & Ht1 & Hb1 & Hnew).
  { rewrite Hb0. exact Hw. }
  rewrite Hrun1.
  set (sl := seq (st_next s0) (length structures)) in *.
  assert (Htruthy : truthy_slabs (Some sl) = Some sl).
  { subst sl. destruct structures; [contradiction | reflexivity]. }
  rewrite Htruthy.
  destruct (map_m_configs adsorbate mode num_sites num_augmentations_per_site Hpl sl s1)
    as (cfgs & s2 & Hrun2 & Hb2 & Hsl2 & Ht2 & Hmap & Hads).
  unfold bind at 1. rewrite Hrun2. unfold ret.
  eexists _, s2, sl, cfgs. split; [reflexivity |]. cbn [slabs adsorbate_slab_configs bulk].
  assert (Hlen : length sl = length structures) by (subst sl; apply length_seq).
  repeat split; auto.
  - rewrite <- Hmap in Hlen. rewrite length_map in Hlen. exact Hlen.
  - subst sl. apply seq_NoDup.
  - rewrite Hsl2. rewrite <- (map_map (st_slabs s1) slab_atoms), Hnew, map_map. cbn.
    apply map_id.
  - rewrite Hsl2. apply Forall_forall. intros l Hl.
    assert (Hx : In (st_slabs s1 l) (map (st_slabs s1) sl)) by (apply in_map; exact Hl).
    rewrite Hnew in Hx. apply in_map_iff in Hx. destruct Hx as (a & <- & _). reflexivity.
  - rewrite Hb2, Hb1, Hb0. reflexivity.
  - rewrite Ht2, Ht1, Hb0. subst s0. cbn [snd new_bulk st_trace].
    rewrite <- app_assoc. cbn [app]. do 2 f_equal.
    rewrite <- (map_map (st_slabs s1)
                  (fun x => EPlace (slab_atoms x) (adsorbate_atoms adsorbate) num_sites
                              num_augmentations_per_site mode)).
    rewrite Hnew, map_map. reflexivity.
Qed.

(** C4. When the enumeration raises, construction catches the error,
    prints the two lines of the handler, and returns a system whose slab
    list is [None] and that has no configurations: nothing is raised, and
    the geometry library is never asked to place the adsorbate. *)
Theorem C4_enumeration_failure_is_swallowed (bulk_structure : Atoms) (adsorbate : Adsorbate)
    (mode : string) (num_sites num_augmentations_per_site : Z) (e : exn) (s : State) :
  world_slabs (st_trace s) bulk_structure = inl e ->
  exists self s',
    init bulk_structure adsorbate mode num_sites num_augmentations_per_site s = (Ok self, s')
    /\ slabs self = None
    /\ adsorbate_slab_configs self = None
    /\ st_trace s'
       = (st_trace s ++ [ESlabs bulk_structure; EPrint "Error creating slab from bulk";
                         EPrint (exn_str e)])%list.
Proof.
  intros Hw. rewrite init_unfold.
  set (s0 := snd (new_bulk bulk_structure s)).
  assert (Hb0 : bulk_atoms (st_bulks s0 (st_next s)) = bulk_structure).
  { subst s0. cbn. rewrite upd_same. reflexivity. }
  destruct (bulk_to_slabs_fail (st_next s) e s0) as (s1 & Hrun1 & Ht1 & _).
  { rewrite Hb0. exact Hw. }
  rewrite Hrun1. cbn [truthy_slabs]. rewrite Hb0 in Ht1.
  eexists _, s1. split; [reflexivity |]. repeat split. exact Ht1.
Qed.

(** C5. When the enumeration raises or returns no slab, the system that
    construction returns has no attribute [adsorbate_slab_configs], the
    setters do not create it, and [relax_adsorbate_slabs] then raises an
    [AttributeError] before doing anything. *)
Theorem C5_relax_without_configs_raises (bulk_structure : Atoms) (adsorbate : Adsorbate)
    (mode : string) (num_sites num_augmentations_per_site : Z) (s : State) :
  (world_slabs (st_trace s) bulk_structure = inr []
   \/ exists e, world_slabs (st_trace s) bulk_structure = inl e) ->
  exists self s',
    init bulk_structure adsorbate mode num_sites num_augmentations_per_site s = (Ok self, s')
    /\ adsorbate_slab_configs self = None
    /\ forall (sts : list setter) (db : Db) (s2 : State),
         adsorbate_slab_configs (apply_setters self sts) = None
         /\ exists msg,
              relax_adsorbate_slabs (apply_setters self sts) db s2
              = (Raise (AttributeError msg), s2).
Proof.
  intros Hw.
  assert (Hset : forall sts self, adsorbate_slab_configs self = None ->
                   adsorbate_slab_configs (apply_setters self sts) = None).
  { induction sts as [| st sts IH]; intros self Hnone; [exact Hnone |].
    cbn. apply IH. destruct st; exact Hnone. }
  assert (Hrelax : forall self, adsorbate_slab_configs self = None ->
            forall (sts : list setter) (db : Db) (s2 : State),
              adsorbate_slab_configs (apply_setters self sts) = None
              /\ exists msg,
                   relax_adsorbate_slabs (apply_setters self sts) db s2
                   = (Raise (AttributeError msg), s2)).
  { intros self Hnone sts db s2. split; [apply Hset, Hnone |].
    unfold relax_adsorbate_slabs. rewrite (Hset sts self Hnone). eexists. reflexivity. }
  rewrite init_unfold.
  set (s0 := snd (new_bulk bulk_structure s)).
  assert (Hb0 : bulk_atoms (st_bulks s0 (st_next s)) = bulk_structure).
  { subst s0. cbn. rewrite upd_same. reflexivity. }
  destruct Hw as [Hw | [e Hw]].
  - destruct (bulk_to_slabs_ok (st_next s) [] s0) as (s1 & Hrun1 & _).
    { rewrite Hb0. exact Hw. }
    rewrite Hrun1. cbn [length seq truthy_slabs].
    eexists _, s1. split; [reflexivity |]. split; [reflexivity |]. apply Hrelax. reflexivity.
  - destruct (bulk_to_slabs_fail (st_next s) e s0) as (s1 & Hrun1 & _).
    { rewrite Hb0. exact Hw. }
    rewrite Hrun1. cbn [truthy_slabs].
    eexists _, s1. split; [reflexivity |]. split; [reflexivity |]. apply Hrelax. reflexivity.
Qed.


Lemma init_path_none bulk_structure adsorbate mode ns na s self s' :
  init bulk_structure adsorbate mode ns na s = (Ok self, s') -> path self = None.
Proof.
  rewrite init_unfold.
  destruct (bulk_to_slabs _ _) as [[sl | e] s1]; [| discriminate].
  destruct (truthy_slabs sl) as [l |].
  - unfold bind, ret.
    destruct (map_m _ l s1) as [[cfgs | e] s2]; intros [= <- <-]; reflexivity.
  - intros [= <- <-]. reflexivity.
Qed.

(** ** The remaining claims *)

(** C2. [write_to_db] looks up [write_bulk_to_db] in [database_utils],
    which defines [write_bulks_to_db] and no [write_bulk_to_db]: the call
    raises [AttributeError] for every system and reaches neither store. *)
Theorem C2_write_to_db_raises (self : CatalystSystem) (bulk_db slab_db : Db) (s : State) :
  write_to_db self bulk_db slab_db s
  = (Raise (AttributeError "module 'database_utils' has no attribute 'write_bulk_to_db'"), s).
Proof. reflexivity. Qed.

(** C10. Construction leaves the path [None] and
    [set_calculator] keeps it.  On a system whose path is [None], whose
    configurations were built and whose first configuration has the ids of
    its bulk and slab, [relax_adsorbate_slabs] raises the [TypeError] of
    [os.path.join], which nothing catches, before any directory is made,
    any relaxation is run or any store is opened. *)
Theorem C10_relax_without_path_raises :
  (forall bulk_structure adsorbate mode ns na s self s' c,
      init bulk_structure adsorbate mode ns na s = (Ok self, s') ->
      path self = None /\ path (set_calculator self c) = None)
  /\ (forall (self : CatalystSystem) (db : Db) (cfg : AdsorbateSlabConfig)
             (rest : list AdsorbateSlabConfig) (B S : Z) (s : State),
        path self = None ->
        adsorbate_slab_configs self = Some (cfg :: rest) ->
        config_ids s cfg = Some (B, S) ->
        relax_adsorbate_slabs self db s
        = (Raise (TypeError "expected str, bytes or os.PathLike object, not NoneType"), s)).
Proof.
  split.
  - intros bulk_structure adsorbate mode ns na s self s' c Hinit.
    apply init_path_none in Hinit. split; [exact Hinit | exact Hinit].
  - intros self db cfg rest B S s Hp Hcfgs Hids.
    destruct (config_ids_some _ _ _ _ Hids) as [HB HS].
    unfold relax_adsorbate_slabs. rewrite Hcfgs. cbn [for_each].
    unfold bind at 1. unfold relax_config.
    unfold bind at 1 2. unfold get_slab at 1, get_bulk at 1.
    rewrite HB. cbn [read_db_id]. unfold bind at 1, ret at 1. unfold bind at 1, get_slab at 1.
    rewrite HS. cbn [read_db_id]. unfold bind at 1, ret at 1.
    rewrite Hp. cbn [os_path_join]. unfold bind at 1, raise at 1. reflexivity.
Qed.

End Theory.

(** ** Further properties of the code *)

Section Further.
Context {ST : Structures} {W : World}.

(** *** What the writers and the relaxation leave alone *)

Lemma chainable_same_objects : chainable same_objects.
Proof.
  split.
  - intros s. repeat split.
  - intros s1 s2 s3 (Hb & Hs & Hc & Hn) (Hb' & Hs' & Hc' & Hn').
    repeat split; congruence.
  - intros s ev. repeat split.
Qed.

Lemma chainable_only_bulk_ids touched : chainable (only_bulk_ids touched).
Proof.
  split.
  - intros s. repeat split.
  - intros s1 s2 s3 (Hs & Hc & Hn & H) (Hs' & Hc' & Hn' & H').
    repeat split; try congruence.
    + rewrite (proj1 (H' l)). apply H.
    + intros Hl. rewrite (proj2 (H' l) Hl). apply H, Hl.
  - intros s ev. repeat split.
Qed.

Lemma chainable_only_slab_ids touched : chainable (only_slab_ids touched).
Proof.
  split.
  - intros s. repeat split.
  - intros s1 s2 s3 (Hs & Hc & Hn & H) (Hs' & Hc' & Hn' & H').
    repeat split; try congruence.
    + rewrite (proj1 (H' l)). apply H.
    + rewrite (proj1 (proj2 (H' l))). apply H.
    + intros Hl. rewrite (proj2 (proj2 (H' l)) Hl). apply H, Hl.
  - intros s ev. repeat split.
Qed.

Lemma chainable_only_cand_ids touched : chainable (only_cand_ids touched).
Proof.
  split.
  - intros s. repeat split.
  - intros s1 s2 s3 (Hs & Hc & Hn & H) (Hs' & Hc' & Hn' & H').
    repeat split; try congruence.
    + rewrite (proj1 (H' l)). apply H.
    + intros Hl. rewrite (proj2 (H' l) Hl). apply H, Hl.
  - intros s ev. repeat split.
Qed.

Section Keeps.
Variable R : State -> State -> Prop.
Hypothesis HR : chainable R.

Lemma keeps_ret {A} (a : A) : keeps R (ret a).
Proof. intros s. apply (chain_refl R HR). Qed.

Lemma keeps_raise {A} (e : exn) : keeps R (@raise _ A e).
Proof. intros s. apply (chain_refl R HR). Qed.

Lemma keeps_bind {A B} (m : M A) (k : A -> M B) :
  keeps R m -> (forall a, keeps R (k a)) -> keeps R (bind m k).
Proof.
  intros Hm Hk s. unfold bind. specialize (Hm s).
  destruct (m s) as [[a | e] s1]; cbn in *; [| exact Hm].
  eapply (chain_trans R HR); [exact Hm | apply Hk].
Qed.

Lemma keeps_try_except {A} (m : M A) (handler : exn -> M A) :
  keeps R m -> (forall e, keeps R (handler e)) -> keeps R (try_except m handler).
Proof.
  intros Hm Hh s. unfold try_except. specialize (Hm s).
  destruct (m s) as [[a | e] s1]; cbn in *; [exact Hm |].
  eapply (chain_trans R HR); [exact Hm | apply Hh].
Qed.

Lemma keeps_for_each {A} (xs : list A) (body : A -> M unit) :
  (forall x, In x xs -> keeps R (body x)) -> keeps R (for_each xs body).
Proof.
  induction xs as [| x xs IH]; intros Hb; cbn [for_each].
  - apply keeps_ret.
  - apply keeps_bind; [apply Hb; left; reflexivity |].
    intros _. apply IH. intros y Hy. apply Hb. right. exact Hy.
Qed.

Lemma keeps_emit ev : keeps R (emit ev).
Proof. intros s. apply (chain_emit R HR). Qed.

Lemma keeps_get_bulk l : keeps R (get_bulk l).
Proof. intros s. apply (chain_refl R HR). Qed.

Lemma keeps_get_slab l : keeps R (get_slab l).
Proof. intros s. apply (chain_refl R HR). Qed.

Lemma keeps_get_cand l : keeps R (get_cand l).
Proof. intros s. apply (chain_refl R HR). Qed.

Lemma keeps_read_db_id cls v : keeps R (read_db_id cls v).
Proof. destruct v; [apply keeps_ret | apply keeps_raise]. Qed.

Lemma keeps_read_attr {A} name (v : option A) : keeps R (read_attr name v).
Proof. destruct v; [apply keeps_ret | apply keeps_raise]. Qed.

Lemma keeps_os_path_join a b : keeps R (os_path_join a b).
Proof. destruct a; [apply keeps_ret | apply keeps_raise]. Qed.

Lemma keeps_db_write db a kv : keeps R (db_write db a kv).
Proof.
  intros s. unfold db_write.
  destruct (world_db_write (st_trace s) db a kv); apply (chain_emit R HR).
Qed.

Lemma keeps_os_makedirs dir exist_ok : keeps R (os_makedirs dir exist_ok).
Proof.
  intros s. unfold os_makedirs.
  destruct (world_makedirs (st_trace s) dir exist_ok); apply (chain_emit R HR).
Qed.

Lemma keeps_calculate_energy_of_slab atom_obj traj_path log_path c :
  keeps R (calculate_energy_of_slab atom_obj traj_path log_path c).
Proof.
  intros s. unfold calculate_energy_of_slab, bind, get_cand.
  destruct (world_relax _ _ _ _ _); apply (chain_emit R HR).
Qed.

Lemma keeps_with_db {A} db (body : M A) : keeps R body -> keeps R (with_db db body).
Proof.
  intros Hb s. unfold with_db.
  pose proof (keeps_bind (emit (EDbEnter db)) (fun _ => body) (keeps_emit _) (fun _ => Hb) s)
    as H.
  destruct ((emit (EDbEnter db) ;; body) s) as [r s1]. cbn [snd] in H |- *.
  eapply (chain_trans R HR); [exact H | apply (chain_emit R HR)].
Qed.

End Keeps.

Lemma keeps_set_bulk_db_id touched l id :
  In l touched -> keeps (only_bulk_ids touched) (set_bulk_db_id l id).
Proof.
  intros Hl s. unfold only_bulk_ids, set_bulk_db_id. cbn [snd st_bulks st_slabs st_cands st_next].
  split; [reflexivity |]. split; [reflexivity |]. split; [reflexivity |].
  intros l'. split.
  - unfold upd. destruct (Nat.eqb_spec l' l) as [-> |]; reflexivity.
  - intros Hn. apply upd_other. intros ->. contradiction.
Qed.

Lemma keeps_set_slab_db_id touched l id :
  In l touched -> keeps (only_slab_ids touched) (set_slab_db_id l id).
Proof.
  intros Hl s. unfold only_slab_ids, set_slab_db_id. cbn [snd st_bulks st_slabs st_cands st_next].
  split; [reflexivity |]. split; [reflexivity |]. split; [reflexivity |].
  intros l'. split; [| split].
  - unfold upd. destruct (Nat.eqb_spec l' l) as [-> |]; reflexivity.
  - unfold upd. destruct (Nat.eqb_spec l' l) as [-> |]; reflexivity.
  - intros Hn. apply upd_other. intros ->. contradiction.
Qed.

Lemma keeps_set_cand_db_id touched l id :
  In l touched -> keeps (only_cand_ids touched) (set_cand_db_id l id).
Proof.
  intros Hl s. unfold only_cand_ids, set_cand_db_id. cbn [snd st_bulks st_slabs st_cands st_next].
  split; [reflexivity |]. split; [reflexivity |]. split; [reflexivity |].
  intros l'. split.
  - unfold upd. destruct (Nat.eqb_spec l' l) as [-> |]; reflexivity.
  - intros Hn. apply upd_other. intros ->. contradiction.
Qed.

Lemma keeps_write_adsorbate_slabs_to_db adslabs db :
  keeps same_objects (write_adsorbate_slabs_to_db adslabs db).
Proof.
  pose proof chainable_same_objects as HR.
  apply keeps_with_db; [exact HR |]. apply keeps_for_each; [exact HR |]. intros r _.
  repeat (apply keeps_bind; [exact HR | | intros ?]);
    try (apply keeps_read_attr; exact HR); try (apply keeps_db_write; exact HR).
  apply keeps_ret; exact HR.
Qed.

Lemma keeps_relax_candidates self B S ads todo :
  forall acc, keeps same_objects (relax_candidates self B S ads todo acc).
Proof.
  pose proof chainable_same_objects as HR.
  induction todo as [| [i l] todo IH]; intros acc; cbn [relax_candidates].
  - apply keeps_ret; exact HR.
  - apply keeps_bind; [exact HR | | intros acc'; apply IH].
    unfold relax_candidate.
    apply keeps_bind; [exact HR | apply keeps_os_path_join; exact HR | intros log_path].
    apply keeps_bind; [exact HR | apply keeps_os_path_join; exact HR | intros traj_path].
    apply keeps_bind; [exact HR | | intros [r |]; apply keeps_ret; exact HR].
    apply keeps_try_except; [exact HR | |].
    + apply keeps_bind; [exact HR | apply keeps_calculate_energy_of_slab; exact HR |].
      intros r. apply keeps_ret; exact HR.
    + intros e. apply keeps_bind; [exact HR | apply keeps_emit; exact HR |].
      intros _. apply keeps_ret; exact HR.
Qed.

Lemma keeps_relax_config self db cfg : keeps same_objects (relax_config self db cfg).
Proof.
  pose proof chainable_same_objects as HR. unfold relax_config.
  apply keeps_bind; [exact HR | apply keeps_get_slab; exact HR | intros x].
  apply keeps_bind; [exact HR | apply keeps_get_bulk; exact HR | intros b].
  apply keeps_bind; [exact HR | apply keeps_read_db_id; exact HR | intros bulk_id].
  apply keeps_bind; [exact HR | apply keeps_get_slab; exact HR | intros x'].
  apply keeps_bind; [exact HR | apply keeps_read_db_id; exact HR | intros slab_id].
  apply keeps_bind; [exact HR | apply keeps_os_path_join; exact HR | intros dir].
  apply keeps_bind; [exact HR | apply keeps_os_makedirs; exact HR | intros _].
  apply keeps_bind; [exact HR | apply keeps_relax_candidates | intros relaxed].
  apply keeps_write_adsorbate_slabs_to_db.
Qed.

(** X1. Whatever the store answers and whether they return or raise, the
    writers change nothing in the object store but the [db_id] of the
    objects they were given: [write_bulks_to_db] that of the listed bulks,
    [write_slabs_to_db] that of the listed slabs,
    [write_adsorbate_slab_configs_to_db] that of the candidates of the
    listed configurations, and [write_adsorbate_slabs_to_db], which drops
    the id the store returns, nothing at all.  No structure, no reference
    from a slab to its bulk and no object outside the collection changes. *)
Theorem X1_writers_only_assign_ids (db : Db) (s : State) :
  (forall bulks, only_bulk_ids bulks s (snd (write_bulks_to_db bulks db s)))
  /\ (forall slabs, only_slab_ids (concat slabs) s (snd (write_slabs_to_db slabs db s)))
  /\ (forall cfgs,
        only_cand_ids (flat_map cfg_atoms_list cfgs) s
          (snd (write_adsorbate_slab_configs_to_db cfgs db s)))
  /\ (forall adslabs, same_objects s (snd (write_adsorbate_slabs_to_db adslabs db s))).
Proof.
  split; [| split; [| split]].
  - intros bulks. pose proof (chainable_only_bulk_ids bulks) as HR.
    enough (H : keeps (only_bulk_ids bulks) (write_bulks_to_db bulks db)) by exact (H s).
    apply keeps_with_db; [exact HR |]. apply keeps_for_each; [exact HR |]. intros bulk Hin.
    apply keeps_bind; [exact HR | apply keeps_get_bulk; exact HR | intros b].
    apply keeps_bind; [exact HR | apply keeps_db_write; exact HR | intros id].
    apply keeps_set_bulk_db_id, Hin.
  - intros slabs. pose proof (chainable_only_slab_ids (concat slabs)) as HR.
    enough (H : keeps (only_slab_ids (concat slabs)) (write_slabs_to_db slabs db))
      by exact (H s).
    apply keeps_with_db; [exact HR |]. apply keeps_for_each; [exact HR |].
    intros slab_list Hlist. apply keeps_for_each; [exact HR |]. intros slab Hin.
    apply keeps_bind; [exact HR | apply keeps_get_slab; exact HR | intros x].
    apply keeps_bind; [exact HR | apply keeps_get_bulk; exact HR | intros b].
    apply keeps_bind; [exact HR | apply keeps_read_db_id; exact HR | intros bulk_id].
    apply keeps_bind; [exact HR | apply keeps_db_write; exact HR | intros id].
    apply keeps_set_slab_db_id. apply in_concat. exists slab_list. auto.
  - intros cfgs. pose proof (chainable_only_cand_ids (flat_map cfg_atoms_list cfgs)) as HR.
    enough (H : keeps (only_cand_ids (flat_map cfg_atoms_list cfgs))
                  (write_adsorbate_slab_configs_to_db cfgs db)) by exact (H s).
    apply keeps_with_db; [exact HR |]. apply keeps_for_each; [exact HR |].
    intros cfg Hcfg. apply keeps_for_each; [exact HR |]. intros atom_obj Hin.
    apply keeps_bind; [exact HR | apply keeps_get_cand; exact HR | intros c].
    apply keeps_bind; [exact HR | apply keeps_get_slab; exact HR | intros x].
    apply keeps_bind; [exact HR | apply keeps_get_bulk; exact HR | intros b].
    apply keeps_bind; [exact HR | apply keeps_read_db_id; exact HR | intros bulk_id].
    apply keeps_bind; [exact HR | apply keeps_get_slab; exact HR | intros x'].
    apply keeps_bind; [exact HR | apply keeps_read_db_id; exact HR | intros slab_id].
    apply keeps_bind; [exact HR | apply keeps_db_write; exact HR | intros id].
    apply keeps_set_cand_db_id. apply in_flat_map. exists cfg. auto.
  - intros adslabs. apply keeps_write_adsorbate_slabs_to_db.
Qed.

(** X2. [relax_adsorbate_slabs] assigns nothing to a bulk, a slab or a
    candidate: whatever the collaborators answer, and whether it returns
    or raises, the object store is afterwards as it was before.  No
    [db_id] is set or changed, and the ids the store assigns to relaxed
    records are kept nowhere.  (The relaxation routine is taken to return
    its result without changing the structure it is given.) *)
Theorem X2_relax_changes_no_object (self : CatalystSystem) (db : Db) (s : State) :
  same_objects s (snd (relax_adsorbate_slabs self db s)).
Proof.
  pose proof chainable_same_objects as HR. revert s.
  change (keeps same_objects (relax_adsorbate_slabs self db)).
  unfold relax_adsorbate_slabs. destruct (adsorbate_slab_configs self) as [configs |].
  - apply keeps_for_each; [exact HR |]. intros cfg _. apply keeps_relax_config.
  - apply keeps_raise; exact HR.
Qed.

(** *** Bulks written twice, and bulks the store refuses *)

(** The loop of [write_bulks_to_db] over bulks whose structures the store
    accepts, whatever it does with other structures. *)
Lemma write_bulks_loop_on db (bulks : list loc) :
  forall s,
    (forall l, In l bulks -> forall tr, exists id,
        world_db_write tr db (bulk_atoms (st_bulks s l)) [] = inr id) ->
    exists body s',
      for_each bulks (write_bulk_body db) s = (Ok tt, s')
      /\ st_trace s' = (st_trace s ++ body)%list
      /\ only_bulk_ids bulks s s'
      /\ Forall2 (fun ev l => exists id, ev = EDbWrite db (bulk_atoms (st_bulks s l)) [] (inr id))
           body bulks
      /\ (forall l, In l bulks -> exists id,
            bulk_db_id (st_bulks s' l) = Some id
            /\ In (EDbWrite db (bulk_atoms (st_bulks s l)) [] (inr id)) body).
Proof.
  induction bulks as [| x xs IH]; intros s Hacc.
  - exists [], s. cbn. rewrite app_nil_r. repeat split; auto. intros l [].
  - cbn [for_each]. unfold bind at 1. unfold write_bulk_body at 1.
    unfold bind, get_bulk, db_write, set_bulk_db_id.
    destruct (Hacc x (or_introl eq_refl) (st_trace s)) as [id Hid]. rewrite Hid.
    match goal with |- context [for_each xs _ ?s1] => set (s1' := s1) end.
    assert (Hatoms : forall l, bulk_atoms (st_bulks s1' l) = bulk_atoms (st_bulks s l)).
    { intros l. subst s1'. cbn. unfold upd. destruct (Nat.eqb_spec l x) as [-> |]; reflexivity. }
    destruct (IH s1') as (body & s' & Hrun & Ht & (Hs & Hc & Hn & Hfr) & Hall & Hids).
    { intros l Hl tr. rewrite Hatoms. apply Hacc. right. exact Hl. }
    exists (EDbWrite db (bulk_atoms (st_bulks s x)) [] (inr id) :: body), s'.
    rewrite Hrun, Ht. subst s1'.
    cbn [st_trace st_bulks st_slabs st_cands st_next] in Hs, Hc, Hn, Hfr, Hatoms, Hall, Hids |- *.
    rewrite <- app_assoc. cbn [app].
    split; [reflexivity |]. split; [reflexivity |]. split; [| split].
    + split; [exact Hs |]. split; [exact Hc |]. split; [exact Hn |]. intros l. split.
      * rewrite (proj1 (Hfr l)). apply Hatoms.
      * intros Hl. rewrite (proj2 (Hfr l)) by (intros Hin; apply Hl; right; exact Hin).
        apply upd_other. intros ->. apply Hl. left. reflexivity.
    + constructor; [eexists; reflexivity |].
      eapply Forall2_impl; [| exact Hall]. cbn beta. intros ev l (id' & ->).
      exists id'. rewrite Hatoms. reflexivity.
    + intros l Hl. destruct (in_dec Nat.eq_dec l xs) as [Hin | Hnin].
      * destruct (Hids l Hin) as (id' & Hid' & Hev). exists id'. split; [assumption |].
        right. rewrite Hatoms in Hev. exact Hev.
      * destruct Hl as [<- | Hl]; [| contradiction].
        exists id. rewrite (proj2 (Hfr x)) by assumption. rewrite upd_same. cbn. auto.
Qed.

(** X3. A bulk listed more than once is written once per listing: the
    records of the write are, in order, one record of each listed bulk,
    every listing of a repeated bulk included; and the id a bulk holds
    afterwards is the one the store returned for its last listing. *)
Theorem X3_last_record_gives_the_id (db : Db) (pre post : list loc) (b : loc) (s : State) :
  store_accepts db ->
  ~ In b post ->
  exists rec_pre id rec_post s',
    write_bulks_to_db (pre ++ b :: post) db s = (Ok tt, s')
    /\ st_trace s'
       = (st_trace s ++ EDbEnter db :: rec_pre
            ++ EDbWrite db (bulk_atoms (st_bulks s b)) [] (inr id) :: rec_post
            ++ [EDbExit db None])%list
    /\ Forall2 (fun ev l => exists id', ev = EDbWrite db (bulk_atoms (st_bulks s l)) [] (inr id'))
         rec_pre pre
    /\ Forall2 (fun ev l => exists id', ev = EDbWrite db (bulk_atoms (st_bulks s l)) [] (inr id'))
         rec_post post
    /\ length rec_pre = length pre
    /\ length rec_post = length post
    /\ bulk_db_id (st_bulks s' b) = Some id.
Proof.
  intros Hdb Hnot.
  destruct (write_bulks_loop_on db pre (snd (emit (EDbEnter db) s)))
    as (body1 & s1 & Hrun1 & Ht1 & (_ & _ & _ & Hfr1) & Hall1 & _).
  { intros l _ tr. apply Hdb. }
  destruct (Hdb (st_trace s1) (bulk_atoms (st_bulks s1 b)) []) as [id Hid].
  set (s2 := snd (set_bulk_db_id b id
                    (snd (emit (EDbWrite db (bulk_atoms (st_bulks s1 b)) [] (inr id)) s1)))).
  destruct (write_bulks_loop_on db post s2)
    as (body3 & s3 & Hrun3 & Ht3 & (_ & _ & _ & Hfr3) & Hall3 & _).
  { intros l _ tr. apply Hdb. }
  assert (Hb1 : bulk_atoms (st_bulks s1 b) = bulk_atoms (st_bulks s b)).
  { rewrite (proj1 (Hfr1 b)). reflexivity. }
  assert (Hat2 : forall l, bulk_atoms (st_bulks s2 l) = bulk_atoms (st_bulks s l)).
  { intros l. subst s2. cbn [snd emit set_bulk_db_id st_bulks]. unfold upd.
    destruct (Nat.eqb_spec l b) as [-> |]; cbn [bulk_atoms]; rewrite (proj1 (Hfr1 _));
      reflexivity. }
  exists body1, id, body3, (snd (emit (EDbExit db None) s3)).
  split; [| split; [| split; [| split; [| split; [| split]]]]].
  - rewrite write_bulks_to_db_eq. apply with_db_ok. rewrite for_each_app.
    unfold bind at 1. rewrite Hrun1. cbn [for_each]. unfold bind at 1.
    unfold write_bulk_body at 1. unfold bind, get_bulk, db_write. rewrite Hid.
    exact Hrun3.
  - cbn [snd emit st_trace]. rewrite Ht3. subst s2. cbn [snd emit set_bulk_db_id st_trace].
    rewrite Ht1, Hb1. cbn [snd emit st_trace]. rewrite <- !app_assoc. reflexivity.
  - exact Hall1.
  - eapply Forall2_impl; [| exact Hall3]. cbn beta. intros ev l (id' & ->).
    exists id'. rewrite Hat2. reflexivity.
  - exact (Forall2_length Hall1).
  - exact (Forall2_length Hall3).
  - cbn [snd emit st_bulks]. rewrite (proj2 (Hfr3 b) Hnot). subst s2.
    cbn [snd set_bulk_db_id emit st_bulks]. rewrite upd_same. reflexivity.
Qed.

(** X4. When the store accepts the bulks listed first and refuses the
    next one, [write_bulks_to_db] raises the error of the store after one
    record per accepted bulk; the bulks written before keep the ids they
    were given, nothing being undone in memory, and every other bulk is
    as it was, the refused one and those listed after it included. *)
Theorem X4_refused_bulk_keeps_earlier_ids (db : Db) (pre post : list loc) (b : loc)
    (e : exn) (s : State) :
  (forall l, In l pre -> forall tr, exists id,
      world_db_write tr db (bulk_atoms (st_bulks s l)) [] = inr id) ->
  (forall tr, world_db_write tr db (bulk_atoms (st_bulks s b)) [] = inl e) ->
  exists rec_pre s',
    write_bulks_to_db (pre ++ b :: post) db s = (Raise e, s')
    /\ st_trace s'
       = (st_trace s ++ EDbEnter db :: rec_pre
            ++ [EDbWrite db (bulk_atoms (st_bulks s b)) [] (inl e); EDbExit db (Some e)])%list
    /\ length rec_pre = length pre
    /\ (forall l, In l pre -> exists id,
          bulk_db_id (st_bulks s' l) = Some id
          /\ In (EDbWrite db (bulk_atoms (st_bulks s l)) [] (inr id)) rec_pre)
    /\ (forall l, ~ In l pre -> st_bulks s' l = st_bulks s l).
Proof.
  intros Hacc Href.
  destruct (write_bulks_loop_on db pre (snd (emit (EDbEnter db) s)))
    as (body1 & s1 & Hrun1 & Ht1 & (_ & _ & _ & Hfr1) & Hall1 & Hids1).
  { exact Hacc. }
  cbn [snd emit st_bulks st_trace] in Ht1, Hfr1, Hall1, Hids1.
  assert (Hb1 : bulk_atoms (st_bulks s1 b) = bulk_atoms (st_bulks s b)) by apply Hfr1.
  set (s2 := snd (emit (EDbWrite db (bulk_atoms (st_bulks s b)) [] (inl e)) s1)).
  exists body1, (snd (emit (EDbExit db (Some e)) s2)).
  split; [| split; [| split; [| split]]].
  - rewrite write_bulks_to_db_eq. unfold with_db. unfold bind at 1. cbn [emit].
    rewrite for_each_app. unfold bind at 1.
    change (for_each pre (write_bulk_body db) (snd (emit (EDbEnter db) s)) = (Ok tt, s1))
      in Hrun1.
    cbn [snd emit] in Hrun1. rewrite Hrun1. cbn [for_each]. unfold bind at 1.
    unfold write_bulk_body at 1. unfold bind, get_bulk, db_write.
    rewrite Hb1, Href. reflexivity.
  - subst s2. cbn [snd emit st_trace]. rewrite Ht1. rewrite <- !app_assoc. reflexivity.
  - exact (Forall2_length Hall1).
  - intros l Hl. subst s2. cbn [snd emit st_bulks]. apply Hids1, Hl.
  - intros l Hl. subst s2. cbn [snd emit st_bulks]. apply Hfr1, Hl.
Qed.

(** *** Construction: what escapes, what is silent, what follows *)

(** X5. Unlike a failure of the enumeration, a failure of the placement
    is not caught by the constructor: when the geometry library raises
    while the first configuration is built, construction raises that
    error, no system is returned, and no further placement is tried. *)
Theorem X5_placement_failure_escapes (bulk_structure : Atoms) (adsorbate : Adsorbate)
    (mode : string) (num_sites num_augmentations_per_site : Z)
    (first : Atoms) (others : list Atoms) (e : exn) (s : State) :
  world_slabs (st_trace s) bulk_structure = inr (first :: others) ->
  world_place (st_trace s ++ [ESlabs bulk_structure])%list first (adsorbate_atoms adsorbate)
    num_sites num_augmentations_per_site mode = inl e ->
  exists s',
    init bulk_structure adsorbate mode num_sites num_augmentations_per_site s = (Raise e, s')
    /\ st_trace s'
       = (st_trace s ++ [ESlabs bulk_structure;
                         EPlace first (adsorbate_atoms adsorbate) num_sites
                           num_augmentations_per_site mode])%list.
Proof.
  intros Hw Hpl. rewrite init_unfold.
  set (s0 := snd (new_bulk bulk_structure s)).
  assert (Hb0 : bulk_atoms (st_bulks s0 (st_next s)) = bulk_structure).
  { subst s0. cbn. rewrite upd_same. reflexivity. }
  destruct (bulk_to_slabs_ok (st_next s) (first :: others) s0) as (s1 & Hrun1 & Ht1 & Hb1 & Hnew).
  { rewrite Hb0. exact Hw. }
  rewrite Hrun1. rewrite Hb0 in Ht1.
  assert (Ht0 : st_trace s0 = st_trace s) by reflexivity. rewrite Ht0 in Ht1.
  set (n := st_next s0) in *. clearbody n s0.
  cbn [length seq truthy_slabs map] in Hnew |- *.
  injection Hnew as Hfirst _.
  cbn [map_m]. unfold bind at 1 2.
  unfold slab_to_adsorbate_slab_config at 1, new_AdsorbateSlabConfig.
  unfold bind at 1, get_slab at 1. unfold bind at 1.
  rewrite Hfirst. cbn [slab_atoms]. rewrite Ht1, Hpl.
  eexists. split; [reflexivity |].
  cbn [snd emit st_trace]. rewrite Ht1. rewrite <- app_assoc. reflexivity.
Qed.

(** X6. When the enumeration returns no slab at all, construction is
    silent: nothing is printed and nothing is raised; the system keeps the
    empty list as its slabs, has no configurations, and the enumeration
    was the only call made. *)
Theorem X6_empty_enumeration_is_silent (bulk_structure : Atoms) (adsorbate : Adsorbate)
    (mode : string) (num_sites num_augmentations_per_site : Z) (s : State) :
  world_slabs (st_trace s) bulk_structure = inr [] ->
  exists self s',
    init bulk_structure adsorbate mode num_sites num_augmentations_per_site s = (Ok self, s')
    /\ slabs self = Some []
    /\ adsorbate_slab_configs self = None
    /\ st_trace s' = (st_trace s ++ [ESlabs bulk_structure])%list.
Proof.
  intros Hw. rewrite init_unfold.
  set (s0 := snd (new_bulk bulk_structure s)).
  assert (Hb0 : bulk_atoms (st_bulks s0 (st_next s)) = bulk_structure).
  { subst s0. cbn. rewrite upd_same. reflexivity. }
  destruct (bulk_to_slabs_ok (st_next s) [] s0) as (s1 & Hrun1 & Ht1 & _).
  { rewrite Hb0. exact Hw. }
  rewrite Hrun1. cbn [length seq truthy_slabs]. rewrite Hb0 in Ht1.
  eexists _, s1. split; [reflexivity |]. repeat split. exact Ht1.
Qed.

(** What a successful construction yields, for the proofs below. *)
Lemma init_builds (bulk_structure : Atoms) (adsorbate : Adsorbate) (mode : string)
    (ns na : Z) (structures : list Atoms) (s : State) :
  world_slabs (st_trace s) bulk_structure = inr structures ->
  structures <> [] ->
  placement_succeeds adsorbate mode ns na ->
  exists self s' sl cfgs,
    init bulk_structure adsorbate mode ns na s = (Ok self, s')
    /\ path self = None
    /\ slabs self = Some sl
    /\ adsorbate_slab_configs self = Some cfgs
    /\ map cfg_slab cfgs = sl
    /\ (forall l, In l sl -> slab_bulk (st_slabs s' l) = bulk self)
    /\ bulk_db_id (st_bulks s' (bulk self)) = None
    /\ cfgs <> [].
Proof.
  intros Hw Hne Hpl. rewrite init_unfold.
  set (s0 := snd (new_bulk bulk_structure s)).
  assert (Hb0 : bulk_atoms (st_bulks s0 (st_next s)) = bulk_structure).
  { subst s0. cbn. rewrite upd_same. reflexivity. }
  destruct (bulk_to_slabs_ok (st_next s) structures s0) as (s1 & Hrun1 & Ht1 & Hb1 & Hnew).
  { rewrite Hb0. exact Hw. }
  rewrite Hrun1.
  set (sl := seq (st_next s0) (length structures)) in *.
  assert (Htruthy : truthy_slabs (Some sl) = Some sl).
  { subst sl. destruct structures; [contradiction | reflexivity]. }
  rewrite Htruthy.
  destruct (map_m_configs adsorbate mode ns na Hpl sl s1)
    as (cfgs & s2 & Hrun2 & Hb2 & Hsl2 & Ht2 & Hmap & Hads).
  unfold bind at 1. rewrite Hrun2. unfold ret.
  eexists _, s2, sl, cfgs. split; [reflexivity |].
  cbn [path slabs adsorbate_slab_configs bulk].
  split; [reflexivity |]. split; [reflexivity |]. split; [reflexivity |].
  split; [exact Hmap |]. split; [| split].
  - intros l Hl. rewrite Hsl2.
    assert (Hx : In (st_slabs s1 l) (map (st_slabs s1) sl)) by (apply in_map; exact Hl).
    rewrite Hnew in Hx. apply in_map_iff in Hx. destruct Hx as (a & <- & _). reflexivity.
  - rewrite Hb2, Hb1. subst s0. cbn [snd new_bulk st_bulks]. rewrite upd_same. reflexivity.
  - intros ->. cbn in Hmap. subst sl. destruct structures; [contradiction | discriminate Hmap].
Qed.

(** X7. After a successful construction, writing the system's bulk with
    [write_bulks_to_db] and then its slab list, as the single element of a
    list, with [write_slabs_to_db] returns and leaves every configuration
    of the system with the ids that [relax_adsorbate_slabs] and
    [write_adsorbate_slab_configs_to_db] read: the one bulk id, shared by
    all configurations, and the id of the configuration's own slab. *)
Theorem X7_written_system_has_its_ids (bulk_structure : Atoms) (adsorbate : Adsorbate)
    (mode : string) (num_sites num_augmentations_per_site : Z)
    (structures : list Atoms) (bulk_db slab_db : Db) (s : State) :
  world_slabs (st_trace s) bulk_structure = inr structures ->
  structures <> [] ->
  placement_succeeds adsorbate mode num_sites num_augmentations_per_site ->
  store_accepts bulk_db ->
  store_accepts slab_db ->
  exists self sl cfgs s1 s2 B,
    init bulk_structure adsorbate mode num_sites num_augmentations_per_site s = (Ok self, s1)
    /\ slabs self = Some sl
    /\ adsorbate_slab_configs self = Some cfgs
    /\ (write_bulks_to_db [bulk self] bulk_db ;; write_slabs_to_db [sl] slab_db) s1
       = (Ok tt, s2)
    /\ bulk_db_id (st_bulks s2 (bulk self)) = Some B
    /\ forall c, In c cfgs -> exists S,
         config_ids s2 c = Some (B, S) /\ slab_db_id (st_slabs s2 (cfg_slab c)) = Some S.
Proof.
  intros Hw Hne Hpl Hbdb Hsdb.
  destruct (init_builds bulk_structure adsorbate mode num_sites num_augmentations_per_site
              structures s Hw Hne Hpl)
    as (self & s1 & sl & cfgs & Hinit & _ & Hsl & Hcfgs & Hmap & Hpar & _ & _).
  destruct (write_bulks_loop bulk_db Hbdb [bulk self] (snd (emit (EDbEnter bulk_db) s1)))
    as (body1 & t1 & Hrun1 & Ht1 & Hsl1 & Hc1 & Hn1 & Hat1 & Hfr1 & Hall1 & Hids1).
  cbn [snd emit st_bulks st_slabs] in Hsl1, Hids1.
  destruct (Hids1 (bulk self) (or_introl eq_refl)) as (B & HB & _).
  set (t1x := snd (emit (EDbExit bulk_db None) t1)).
  destruct (write_slabs_loop slab_db Hsdb (concat [sl]) (snd (emit (EDbEnter slab_db) t1x)))
    as (body2 & t2 & Hrun2 & Ht2 & Hb2 & Hc2 & Hn2 & Hat2 & Hfr2 & Hall2 & Hids2).
  { intros l Hl. cbn [concat] in Hl. rewrite app_nil_r in Hl.
    subst t1x. cbn [snd emit st_bulks st_slabs]. rewrite Hsl1, (Hpar l Hl). eauto. }
  subst t1x. cbn [snd emit st_bulks st_slabs] in Hb2, Hat2, Hids2.
  exists self, sl, cfgs, s1, (snd (emit (EDbExit slab_db None) t2)), B.
  split; [exact Hinit |]. split; [exact Hsl |]. split; [exact Hcfgs |].
  split; [| split].
  - unfold bind. rewrite write_bulks_to_db_eq, (with_db_ok _ _ _ _ Hrun1).
    rewrite write_slabs_to_db_eq. apply with_db_ok. exact Hrun2.
  - cbn [snd emit st_bulks]. rewrite Hb2. exact HB.
  - intros c Hc.
    assert (Hin : In (cfg_slab c) sl) by (rewrite <- Hmap; apply in_map; exact Hc).
    destruct (Hids2 (cfg_slab c)) as (S & bid & HS & _).
    { cbn [concat]. rewrite app_nil_r. exact Hin. }
    exists S. unfold config_ids. cbn [snd emit st_bulks st_slabs].
    rewrite HS, Hb2. rewrite (proj2 (Hat2 (cfg_slab c))), Hsl1, (Hpar _ Hin), HB.
    split; reflexivity.
Qed.

(** *** Relaxation under arbitrary failures *)

Lemma count_app kind (xs ys : list Event) :
  count kind (xs ++ ys) = count kind xs + count kind ys.
Proof. unfold count. rewrite filter_app, length_app. reflexivity. Qed.

Lemma count_none kind (evs : list Event) :
  Forall (fun ev => kind ev = false) evs -> count kind evs = 0.
Proof.
  unfold count. induction 1 as [| ev evs Hev _ IH]; cbn; [reflexivity |].
  rewrite Hev. exact IH.
Qed.

Lemma count_all kind (evs : list Event) :
  Forall (fun ev => kind ev = true) evs -> count kind evs = length evs.
Proof.
  unfold count. induction 1 as [| ev evs Hev _ IH]; cbn; [reflexivity |].
  rewrite Hev. cbn. rewrite IH. reflexivity.
Qed.

Lemma Forall_exists_Forall2 {A B} (P : A -> B -> Prop) (xs : list A) :
  Forall (fun x => exists y, P x y) xs -> exists ys, Forall2 P xs ys.
Proof.
  induction 1 as [| x xs [y Hy] _ [ys IH]].
  - exists []. constructor.
  - exists (y :: ys). constructor; assumption.
Qed.

(** The loop over the candidates, whatever the relaxations do: one call
    per candidate, and every candidate ends as an annotated result or as a
    printed line. *)
Lemma relax_candidates_totals (self : CatalystSystem) p B S ads
    (Hp : path self = Some p) (todo : list (nat * loc)) :
  forall acc s, exists evs new s',
    relax_candidates self B S ads todo acc s = (Ok (acc ++ new)%list, s')
    /\ st_trace s' = (st_trace s ++ evs)%list
    /\ Forall (fun r => exists i, annotated B S i r /\ True) new
    /\ Forall (fun ev => is_relax ev = true \/ is_print ev = true) evs
    /\ count is_relax evs = length todo
    /\ length new + count is_print evs = length todo.
Proof.
  induction todo as [| [i l] todo IH]; intros acc s.
  - exists [], [], s. cbn. rewrite !app_nil_r. repeat split; constructor.
  - cbn [relax_candidates]. unfold bind at 1. unfold relax_candidate.
    rewrite Hp. unfold os_path_join, bind, ret, try_except, calculate_energy_of_slab,
      bind, get_cand, print, emit. cbn [snd].
    destruct (world_relax _ _ _ _ _) as [e | a].
    + match goal with |- context [relax_candidates _ _ _ _ todo ?acc1 ?s1] =>
        destruct (IH acc1 s1) as (evs & new & s' & Hrun & Ht & Hann & Hkinds & Hcr & Hcp) end.
      cbn [st_trace] in Ht.
      eexists (_ :: _ :: evs), new, s'. rewrite Hrun, Ht.
      rewrite <- !app_assoc. cbn [app].
      split; [reflexivity |]. split; [reflexivity |]. split; [exact Hann |].
      split; [| split].
      * constructor; [left; reflexivity |]. constructor; [right; reflexivity | exact Hkinds].
      * unfold count in *. cbn [filter is_relax length]. rewrite Hcr. reflexivity.
      * unfold count in *. cbn [filter is_print length]. rewrite <- Hcp. lia.
    + match goal with |- context [relax_candidates _ _ _ _ todo ?acc1 ?s1] =>
        destruct (IH acc1 s1) as (evs & new & s' & Hrun & Ht & Hann & Hkinds & Hcr & Hcp) end.
      cbn [st_trace] in Ht.
      eexists (_ :: evs), (_ :: new), s'. rewrite Hrun, Ht.
      rewrite <- !app_assoc. cbn [app].
      split; [reflexivity |]. split; [reflexivity |]. split; [| split; [| split]].
      * constructor; [| exact Hann]. exists i. repeat split.
      * constructor; [left; reflexivity | exact Hkinds].
      * unfold count in *. cbn [filter is_relax length]. rewrite Hcr. reflexivity.
      * unfold count in *. cbn [filter is_print length]. rewrite <- Hcp. reflexivity.
Qed.

Lemma relax_config_totals (self : CatalystSystem) (db : Db) p cfg B S s
    (Hp : path self = Some p) (Hids : config_ids s cfg = Some (B, S))
    (Hmk : forall tr d, world_makedirs tr d true = None) (Hdb : store_accepts db) :
  exists evs s',
    relax_config self db cfg s = (Ok tt, s')
    /\ st_trace s' = (st_trace s ++ evs)%list
    /\ same_objects s s'
    /\ count is_makedirs evs = 1
    /\ count is_db_enter evs = 1
    /\ count is_relax evs = length (cfg_atoms_list cfg)
    /\ count is_record evs + count is_print evs = length (cfg_atoms_list cfg).
Proof.
  set (s_mk := snd (emit (EMakedirs (posix_join p (slab_dir B S)) true) s)).
  destruct (relax_candidates_totals self p B S
              (get_chemical_formula (adsorbate_atoms (cfg_adsorbate cfg))) Hp
              (enumerate (cfg_atoms_list cfg)) [] s_mk)
    as (evs1 & new & s2 & Hrun2 & Ht2 & Hann & Hkinds & Hcr & Hcp).
  cbn [app] in Hrun2.
  destruct (Forall_exists_Forall2 _ _ Hann) as [ixs Hann2].
  destruct (write_adslabs_loop db Hdb B S (fun _ _ => True) new ixs
              (snd (emit (EDbEnter db) s2)) Hann2)
    as (body & s3 & Hrun3 & Ht3 & _ & _ & _ & _ & Hrec).
  assert (Hbody : Forall (fun ev => is_record ev = true /\ is_makedirs ev = false
                                    /\ is_db_enter ev = false /\ is_relax ev = false
                                    /\ is_print ev = false) body).
  { clear - Hrec. induction Hrec as [| ev i body ixs (a & id & -> & _) _ IH];
      constructor; [repeat split | exact IH]. }
  assert (Hlen : length body = length new).
  { rewrite (Forall2_length Hrec). symmetry. exact (Forall2_length Hann2). }
  assert (Hev1 : Forall (fun ev => is_makedirs ev = false /\ is_db_enter ev = false
                                   /\ is_record ev = false) evs1).
  { eapply Forall_impl; [| exact Hkinds]. intros ev [H | H]; destruct ev; try discriminate H;
      repeat split. }
  exists (EMakedirs (posix_join p (slab_dir B S)) true
          :: evs1 ++ EDbEnter db :: body ++ [EDbExit db None])%list,
         (snd (emit (EDbExit db None) s3)).
  split; [| split; [| split]].
  - rewrite (relax_config_run _ _ _ _ _ _ _ Hp Hids), Hmk. fold s_mk. rewrite Hrun2.
    rewrite write_adsorbate_slabs_to_db_eq. apply with_db_ok. exact Hrun3.
  - cbn [snd emit st_trace]. rewrite Ht3. cbn [snd emit st_trace]. rewrite Ht2.
    subst s_mk. cbn [snd emit st_trace]. rewrite <- !app_assoc. reflexivity.
  - pose proof (keeps_relax_config self db cfg s) as Hk.
    rewrite (relax_config_run _ _ _ _ _ _ _ Hp Hids), Hmk in Hk. fold s_mk in Hk.
    rewrite Hrun2, write_adsorbate_slabs_to_db_eq, (with_db_ok _ _ _ _ Hrun3) in Hk.
    exact Hk.
  - change (EMakedirs (posix_join p (slab_dir B S)) true
            :: evs1 ++ EDbEnter db :: body ++ [EDbExit db None])%list
      with ([EMakedirs (posix_join p (slab_dir B S)) true]
            ++ evs1 ++ [EDbEnter db] ++ body ++ [EDbExit db None])%list.
    rewrite !count_app.
    rewrite (count_none is_makedirs evs1), (count_none is_makedirs body),
            (count_none is_db_enter evs1), (count_none is_db_enter body),
            (count_none is_relax body), (count_none is_record evs1),
            (count_none is_print body), (count_all is_record body), Hcr, Hlen;
      try (eapply Forall_impl; [| exact Hbody]; cbn beta; tauto);
      try (eapply Forall_impl; [| exact Hev1]; cbn beta; tauto).
    unfold count. cbn [filter is_makedirs is_db_enter is_relax is_record is_print length].
    assert (Henum : length (enumerate (cfg_atoms_list cfg)) = length (cfg_atoms_list cfg)).
    { unfold enumerate. rewrite length_combine, length_seq. apply Nat.min_id. }
    rewrite Henum in *. unfold count in *. repeat split; lia.
Qed.

(** X8. With the path set, the ids of every configuration assigned, and
    a filesystem and a store that do not fail, [relax_adsorbate_slabs]
    returns whatever the relaxations do: it creates one directory and
    acquires the store once per configuration, calls the relaxation
    routine once per candidate, and every candidate ends either as a
    record in the store or as a printed error line. *)
Theorem X8_relax_accounts_for_every_candidate (self : CatalystSystem) (db : Db) (p : string)
    (cfgs : list AdsorbateSlabConfig) (s : State) :
  path self = Some p ->
  adsorbate_slab_configs self = Some cfgs ->
  (forall c, In c cfgs -> exists B S, config_ids s c = Some (B, S)) ->
  (forall tr d, world_makedirs tr d true = None) ->
  store_accepts db ->
  exists evs s',
    relax_adsorbate_slabs self db s = (Ok tt, s')
    /\ st_trace s' = (st_trace s ++ evs)%list
    /\ count is_makedirs evs = length cfgs
    /\ count is_db_enter evs = length cfgs
    /\ count is_relax evs = length (config_candidates cfgs)
    /\ count is_record evs + count is_print evs = length (config_candidates cfgs).
Proof.
  intros Hp Hcfgs Hids Hmk Hdb. unfold relax_adsorbate_slabs. rewrite Hcfgs. clear Hcfgs.
  revert s Hids. induction cfgs as [| c cfgs IH]; intros s Hids.
  - exists [], s. cbn. rewrite app_nil_r. repeat split.
  - destruct (Hids c (or_introl eq_refl)) as (B & S & Hc).
    destruct (relax_config_totals self db p c B S s Hp Hc Hmk Hdb)
      as (evs1 & s1 & Hrun1 & Ht1 & (Hb & Hsl & Hcd & Hn) & Hm1 & He1 & Hr1 & Hw1).
    destruct (IH s1) as (evs2 & s2 & Hrun2 & Ht2 & Hm2 & He2 & Hr2 & Hw2).
    { intros c' Hc'. unfold config_ids. rewrite Hb, Hsl. apply Hids. right. exact Hc'. }
    exists (evs1 ++ evs2)%list, s2. cbn [for_each]. unfold bind at 1. rewrite Hrun1.
    split; [exact Hrun2 |]. split; [rewrite Ht2, Ht1, app_assoc; reflexivity |].
    rewrite !count_app. unfold config_candidates in *. cbn [flat_map length].
    rewrite length_app, length_map. repeat split; lia.
Qed.

(** X9. When every relaxation of a configuration fails, and likewise
    when the configuration has no candidate, the turn of the configuration
    still returns and still acquires and releases the store, with no
    record in between; one line is printed per candidate.  The store is
    never asked to write, so it cannot fail the turn. *)
Theorem X9_nothing_relaxed_writes_nothing (self : CatalystSystem) (db : Db) (p : string)
    (pre post : list AdsorbateSlabConfig) (cfg : AdsorbateSlabConfig)
    (B S : Z) (s0 s : State) :
  path self = Some p ->
  adsorbate_slab_configs self = Some (pre ++ cfg :: post)%list ->
  for_each pre (relax_config self db) s0 = (Ok tt, s) ->
  config_ids s cfg = Some (B, S) ->
  world_makedirs (st_trace s) (posix_join p (slab_dir B S)) true = None ->
  (forall tr i l, In (i, l) (enumerate (cfg_atoms_list cfg)) -> exists e,
      world_relax tr (cand_atoms (st_cands s l))
        (traj_path_of p B S i) (log_path_of p B S i) (calc self) = inl e) ->
  exists evs s1,
    relax_adsorbate_slabs self db s0 = for_each post (relax_config self db) s1
    /\ st_trace s1
       = (st_trace s ++ EMakedirs (posix_join p (slab_dir B S)) true
            :: evs ++ [EDbEnter db; EDbExit db None])%list
    /\ Forall (fun ev => is_relax ev = true \/ is_print ev = true) evs
    /\ count is_relax evs = length (cfg_atoms_list cfg)
    /\ count is_print evs = length (cfg_atoms_list cfg).
Proof.
  intros Hp Hcfgs Hpre Hids Hmk Hfail.
  set (s_mk := snd (emit (EMakedirs (posix_join p (slab_dir B S)) true) s)).
  assert (Hloop : forall todo acc t,
            st_cands t = st_cands s -> incl todo (enumerate (cfg_atoms_list cfg)) ->
            exists evs t',
              relax_candidates self B S
                (get_chemical_formula (adsorbate_atoms (cfg_adsorbate cfg))) todo acc t
              = (Ok acc, t')
              /\ st_trace t' = (st_trace t ++ evs)%list
              /\ Forall (fun ev => is_relax ev = true \/ is_print ev = true) evs
              /\ count is_relax evs = length todo
              /\ count is_print evs = length todo).
  { induction todo as [| [i l] todo IH]; intros acc t Hc Hincl.
    - exists [], t. cbn. rewrite app_nil_r. repeat split. constructor.
    - cbn [relax_candidates]. unfold bind at 1. unfold relax_candidate.
      rewrite Hp. unfold os_path_join, bind, ret, try_except, calculate_energy_of_slab,
        bind, get_cand, print, emit. cbn [snd].
      fold (traj_path_of p B S i). fold (log_path_of p B S i).
      destruct (Hfail (st_trace t) i l (Hincl _ (or_introl eq_refl))) as [e He].
      rewrite <- Hc in He. rewrite He.
      match goal with |- context [relax_candidates _ _ _ _ todo acc ?t1] =>
        destruct (IH acc t1) as (evs & t' & Hrun & Ht & Hkinds & Hcr & Hcp) end;
        [exact Hc | intros x Hx; apply Hincl; right; exact Hx |].
      cbn [st_trace] in Ht.
      eexists (_ :: _ :: evs), t'. rewrite Hrun, Ht. rewrite <- !app_assoc. cbn [app].
      split; [reflexivity |]. split; [reflexivity |]. split; [| split].
      + constructor; [left; reflexivity |]. constructor; [right; reflexivity | exact Hkinds].
      + unfold count in *. cbn [filter is_relax length]. rewrite Hcr. reflexivity.
      + unfold count in *. cbn [filter is_print length]. rewrite Hcp. reflexivity. }
  destruct (Hloop (enumerate (cfg_atoms_list cfg)) [] s_mk eq_refl (incl_refl _))
    as (evs & s2 & Hrun2 & Ht2 & Hkinds & Hcr & Hcp).
  assert (Henum : length (enumerate (cfg_atoms_list cfg)) = length (cfg_atoms_list cfg)).
  { unfold enumerate. rewrite length_combine, length_seq. apply Nat.min_id. }
  rewrite Henum in Hcr, Hcp.
  exists evs, (snd (emit (EDbExit db None) (snd (emit (EDbEnter db) s2)))).
  split; [| split; [| split; [| split]]]; try assumption.
  - rewrite (relax_adsorbate_slabs_reaches _ _ _ _ _ _ _ Hcfgs Hpre).
    unfold bind at 1. rewrite (relax_config_run _ _ _ _ _ _ _ Hp Hids), Hmk.
    fold s_mk. rewrite Hrun2. reflexivity.
  - cbn [snd emit st_trace]. rewrite Ht2. subst s_mk. cbn [snd emit st_trace].
    rewrite <- !app_assoc. reflexivity.
Qed.

(** *** File names *)

Lemma string_length_app (a b : string) :
  String.length (a ++ b) = String.length a + String.length b.
Proof. induction a as [| c a IH]; cbn; [reflexivity | rewrite IH; reflexivity]. Qed.

Lemma string_app_cancel_l (a x y : string) : (a ++ x)%string = (a ++ y)%string -> x = y.
Proof. induction a as [| c a IH]; cbn; [auto | intros [= H]; auto]. Qed.

Lemma string_app_cancel_r (c x y : string) : (x ++ c)%string = (y ++ c)%string -> x = y.
Proof.
  revert y. induction x as [| a x IH]; intros [| b y] H; cbn in H.
  - reflexivity.
  - apply (f_equal String.length) in H. cbn in H. rewrite string_length_app in H. lia.
  - apply (f_equal String.length) in H. cbn in H. rewrite string_length_app in H. lia.
  - injection H as -> H. f_equal. apply IH, H.
Qed.

(** [str] of an integer can be read back: no two integers print alike. *)
Lemma str_int_inj (a b : Z) : str_int a = str_int b -> a = b.
Proof.
  unfold str_int. intros H.
  assert (Hok : forall z, NilZero.int_of_string (NilZero.string_of_int (Z.to_int z))
                          = Some (Z.to_int z)).
  { intros z. apply NilZero.isi; destruct z; cbn; try discriminate;
      intros [= Hnil]; exact (DecimalPos.Unsigned.to_uint_nonnil _ Hnil). }
  pose proof (Hok a) as Ha. rewrite H, Hok in Ha. injection Ha as Ha.
  rewrite <- (DecimalZ.of_to a), <- (DecimalZ.of_to b), Ha. reflexivity.
Qed.

Lemma posix_join_in_slab_dir p B S rest :
  posix_join p (slab_dir B S ++ rest) = (posix_join p (slab_dir B S) ++ rest)%string.
Proof.
  unfold posix_join, slab_dir. cbn [String.prefix append].
  destruct (Ascii.ascii_dec "/" "b") as [Heq | _]; [discriminate Heq |].
  destruct (_ || _)%bool;
    repeat first [rewrite string_app_assoc | progress cbn [append]]; reflexivity.
Qed.

(** X10. Whatever the path, empty or ending in a separator or not, the
    log and the trajectory file of candidate [i] are named
    [adslab{i}.txt] and [adslab{i}.traj] directly inside the directory
    that is created for the configuration; two candidates of a
    configuration never share a log file or a trajectory file, and the
    log file of one is never the trajectory file of another. *)
Theorem X10_candidate_files (p : string) (B S : Z) :
  (forall i,
      log_path_of p B S i
      = (posix_join p (slab_dir B S) ++ "/adslab" ++ str_int (Z.of_nat i) ++ ".txt")%string
      /\ traj_path_of p B S i
         = (posix_join p (slab_dir B S) ++ "/adslab" ++ str_int (Z.of_nat i) ++ ".traj")%string)
  /\ (forall i j, log_path_of p B S i = log_path_of p B S j -> i = j)
  /\ (forall i j, traj_path_of p B S i = traj_path_of p B S j -> i = j)
  /\ (forall i j, log_path_of p B S i <> traj_path_of p B S j).
Proof.
  assert (Hfiles : forall i,
      log_path_of p B S i
      = (posix_join p (slab_dir B S) ++ "/adslab" ++ str_int (Z.of_nat i) ++ ".txt")%string
      /\ traj_path_of p B S i
         = (posix_join p (slab_dir B S) ++ "/adslab" ++ str_int (Z.of_nat i) ++ ".traj")%string).
  { intros i. unfold log_path_of, traj_path_of. rewrite !posix_join_in_slab_dir. auto. }
  split; [exact Hfiles |]. split; [| split].
  - intros i j H. rewrite (proj1 (Hfiles i)), (proj1 (Hfiles j)) in H.
    apply string_app_cancel_l in H. apply (string_app_cancel_l "/adslab") in H.
    apply string_app_cancel_r, str_int_inj in H. lia.
  - intros i j H. rewrite (proj2 (Hfiles i)), (proj2 (Hfiles j)) in H.
    apply string_app_cancel_l in H. apply (string_app_cancel_l "/adslab") in H.
    apply string_app_cancel_r, str_int_inj in H. lia.
  - intros i j H. rewrite (proj1 (Hfiles i)), (proj2 (Hfiles j)) in H.
    apply string_app_cancel_l in H. apply (string_app_cancel_l "/adslab") in H.
    assert (Hlast : forall x y : string, (x ++ ".txt")%string <> (y ++ ".traj")%string).
    { induction x as [| a x IH]; intros y Hxy.
      - apply (f_equal String.length) in Hxy. rewrite !string_length_app in Hxy.
        cbn in Hxy. lia.
      - destruct y as [| b y]; cbn in Hxy.
        + pose proof (f_equal String.length Hxy) as Hlen. cbn in Hlen.
          rewrite string_length_app in Hlen. cbn in Hlen.
          destruct x; [discriminate Hxy | cbn in Hlen; lia].
        + injection Hxy as _ Hxy. exact (IH _ Hxy). }
    exact (Hlast _ _ H).
Qed.

(** *** Errors that stop a writer or the relaxation *)

(** X11. Slabs must be written after their bulks: when the slabs listed
    first have written parent bulks and the next one has a parent bulk
    without [db_id], [write_slabs_to_db] raises [AttributeError] before
    asking the store to write that slab.  The store was acquired and is
    released with the error, one record was written per earlier slab, and
    the slabs that were not reached are as they were. *)
Theorem X11_slab_of_unwritten_bulk (db : Db) (slabs : list (list loc))
    (pre post : list loc) (x : loc) (s : State) :
  store_accepts db ->
  concat slabs = (pre ++ x :: post)%list ->
  (forall l, In l pre -> exists bid,
      bulk_db_id (st_bulks s (slab_bulk (st_slabs s l))) = Some bid) ->
  bulk_db_id (st_bulks s (slab_bulk (st_slabs s x))) = None ->
  exists records s',
    write_slabs_to_db slabs db s
    = (Raise (AttributeError "'Bulk' object has no attribute 'db_id'"), s')
    /\ st_trace s'
       = (st_trace s ++ EDbEnter db :: records
            ++ [EDbExit db (Some (AttributeError "'Bulk' object has no attribute 'db_id'"))])%list
    /\ Forall2 (fun ev l => exists id bid,
           ev = EDbWrite db (slab_atoms (st_slabs s l)) (slab_tags bid) (inr id)) records pre
    /\ (forall l, ~ In l pre -> st_slabs s' l = st_slabs s l).
Proof.
  intros Hdb Hcat Hpar Hnone.
  destruct (write_slabs_loop db Hdb pre (snd (emit (EDbEnter db) s)))
    as (body & s1 & Hrun & Ht & Hb & Hc & Hn & Hat & Hfr & Hall & _).
  { exact Hpar. }
  cbn [snd emit st_bulks st_slabs st_trace] in Ht, Hb, Hat, Hfr, Hall.
  exists body, (snd (emit (EDbExit db (Some (AttributeError
                                              "'Bulk' object has no attribute 'db_id'"))) s1)).
  split; [| split; [| split]].
  - rewrite write_slabs_to_db_eq, Hcat. unfold with_db. unfold bind at 1. cbn [emit].
    rewrite for_each_app. unfold bind at 1.
    change (for_each pre (write_slab_body db) (snd (emit (EDbEnter db) s)) = (Ok tt, s1))
      in Hrun.
    cbn [snd emit] in Hrun. rewrite Hrun. cbn [for_each]. unfold bind at 1.
    unfold write_slab_body at 1. unfold bind, get_slab, get_bulk.
    rewrite Hb, (proj2 (Hat x)), Hnone. reflexivity.
  - cbn [snd emit st_trace]. rewrite Ht. rewrite <- !app_assoc. reflexivity.
  - eapply Forall2_impl; [| exact Hall]. cbn beta. intros ev l (id & bid & _ & ->). eauto.
  - intros l Hl. cbn [snd emit st_slabs]. apply Hfr, Hl.
Qed.

(** X12. An error of [os.makedirs] is not caught: when the directory of
    a configuration cannot be created, [relax_adsorbate_slabs] raises that
    error at once; no candidate of that configuration is relaxed, the
    store is not acquired, and the configurations after it are never
    visited. *)
Theorem X12_makedirs_error_stops_the_run (self : CatalystSystem) (db : Db) (p : string)
    (pre post : list AdsorbateSlabConfig) (cfg : AdsorbateSlabConfig)
    (B S : Z) (e : exn) (s0 s : State) :
  path self = Some p ->
  adsorbate_slab_configs self = Some (pre ++ cfg :: post)%list ->
  for_each pre (relax_config self db) s0 = (Ok tt, s) ->
  config_ids s cfg = Some (B, S) ->
  world_makedirs (st_trace s) (posix_join p (slab_dir B S)) true = Some e ->
  exists s',
    relax_adsorbate_slabs self db s0 = (Raise e, s')
    /\ st_trace s' = (st_trace s ++ [EMakedirs (posix_join p (slab_dir B S)) true])%list.
Proof.
  intros Hp Hcfgs Hpre Hids Hmk.
  rewrite (relax_adsorbate_slabs_reaches _ _ _ _ _ _ _ Hcfgs Hpre).
  unfold bind at 1. rewrite (relax_config_run _ _ _ _ _ _ _ Hp Hids), Hmk.
  eexists. split; reflexivity.
Qed.

(** X13. An error of the store is met only after the work is done: when
    the first candidate of a configuration relaxes and the store refuses
    what it is asked to write, every candidate of the configuration has
    been relaxed by the time [relax_adsorbate_slabs] raises the error of
    the store; no record is written, the store is released with the error,
    and the configurations after it are never visited. *)
Theorem X13_store_error_after_all_relaxations (self : CatalystSystem) (db : Db) (p : string)
    (pre post : list AdsorbateSlabConfig) (cfg : AdsorbateSlabConfig)
    (B S : Z) (first : loc) (others : list loc) (a : Atoms) (e : exn) (s0 s : State) :
  path self = Some p ->
  adsorbate_slab_configs self = Some (pre ++ cfg :: post)%list ->
  for_each pre (relax_config self db) s0 = (Ok tt, s) ->
  config_ids s cfg = Some (B, S) ->
  world_makedirs (st_trace s) (posix_join p (slab_dir B S)) true = None ->
  cfg_atoms_list cfg = first :: others ->
  world_relax (st_trace s ++ [EMakedirs (posix_join p (slab_dir B S)) true])%list
    (cand_atoms (st_cands s first)) (traj_path_of p B S 0) (log_path_of p B S 0) (calc self)
  = inr a ->
  (forall tr x kv, world_db_write tr db x kv = inl e) ->
  exists evs s',
    relax_adsorbate_slabs self db s0 = (Raise e, s')
    /\ st_trace s'
       = (st_trace s ++ EMakedirs (posix_join p (slab_dir B S)) true :: evs
            ++ [EDbEnter db; EDbWrite db a (relaxed_tags B S 0) (inl e);
                EDbExit db (Some e)])%list
    /\ Forall (fun ev => is_relax ev = true \/ is_print ev = true) evs
    /\ count is_relax evs = length (cfg_atoms_list cfg).
Proof.
  intros Hp Hcfgs Hpre Hids Hmk Hlist Hfirst Hdb.
  set (ads := get_chemical_formula (adsorbate_atoms (cfg_adsorbate cfg))).
  set (s_mk := snd (emit (EMakedirs (posix_join p (slab_dir B S)) true) s)).
  set (r0 := {| rel_atoms := a; rel_bulk_id := Some B; rel_slab_id := Some S;
                rel_adslab_id := Some (Z.of_nat 0); rel_adsorbate := Some ads |}).
  set (s_r := snd (emit (ERelax (cand_atoms (st_cands s first)) (traj_path_of p B S 0)
                           (log_path_of p B S 0) (calc self)) s_mk)).
  destruct (relax_candidates_totals self p B S ads Hp
              (combine (seq 1 (length others)) others) [r0] s_r)
    as (evs & new & s2 & Hrun2 & Ht2 & _ & Hkinds & Hcr & _).
  assert (Hrun : relax_candidates self B S ads (enumerate (cfg_atoms_list cfg)) [] s_mk
                 = (Ok (r0 :: new), s2)).
  { rewrite Hlist. unfold enumerate. cbn [length seq combine relax_candidates].
    unfold bind at 1. unfold relax_candidate.
    rewrite Hp. unfold os_path_join, bind, ret, try_except, calculate_energy_of_slab,
      bind, get_cand, print, emit. cbn [snd].
    fold (traj_path_of p B S 0). fold (log_path_of p B S 0).
    subst s_mk. cbn [snd emit st_trace st_cands]. rewrite Hfirst. exact Hrun2. }
  exists (ERelax (cand_atoms (st_cands s first)) (traj_path_of p B S 0)
            (log_path_of p B S 0) (calc self) :: evs),
         (snd (emit (EDbExit db (Some e))
                 (snd (emit (EDbWrite db a (relaxed_tags B S 0) (inl e))
                         (snd (emit (EDbEnter db) s2)))))).
  split; [| split; [| split]].
  - rewrite (relax_adsorbate_slabs_reaches _ _ _ _ _ _ _ Hcfgs Hpre).
    unfold bind at 1. rewrite (relax_config_run _ _ _ _ _ _ _ Hp Hids), Hmk.
    fold s_mk. fold ads. rewrite Hrun.
    unfold write_adsorbate_slabs_to_db, with_db. unfold bind at 1. cbn [emit for_each].
    unfold bind at 1 2 3 4. cbn [read_attr r0 rel_bulk_id rel_slab_id rel_adslab_id ret].
    unfold bind at 1. unfold db_write. rewrite Hdb. reflexivity.
  - cbn [snd emit st_trace]. rewrite Ht2. subst s_r s_mk. cbn [snd emit st_trace].
    rewrite <- !app_assoc. reflexivity.
  - constructor; [left; reflexivity | exact Hkinds].
  - unfold count in *. cbn [filter is_relax length]. rewrite Hcr, Hlist.
    rewrite length_combine, length_seq, Nat.min_id. reflexivity.
Qed.

(** *** Candidate indices *)

Lemma nth_error_combine_seq {A} (xs : list A) (j i : nat) (x : A) :
  nth_error (combine (seq j (length xs)) xs) i = Some (j + i, x) <-> nth_error xs i = Some x.
Proof.
  revert j i. induction xs as [| y xs IH]; intros j i; cbn [length seq combine].
  - destruct i; cbn; split; discriminate.
  - destruct i as [| i]; cbn [nth_error].
    + rewrite Nat.add_0_r. split; intros [= ->]; reflexivity.
    + rewrite <- (IH (S j) i). rewrite Nat.add_succ_r. reflexivity.
Qed.

(** [(i, x)] is an entry of the enumeration exactly when [x] is the
    [i]-th element of the list, and the entries come in that order. *)
Lemma enumerate_positions {A} (xs : list A) :
  (forall i x, In (i, x) (enumerate xs) <-> nth_error xs i = Some x)
  /\ map fst (enumerate xs) = seq 0 (length xs)
  /\ map snd (enumerate xs) = xs.
Proof.
  split; [| split].
  - intros i x. split.
    + intros Hin. apply In_nth_error in Hin. destruct Hin as [n Hn].
      assert (Hi : nth_error (map fst (enumerate xs)) n = Some i).
      { rewrite nth_error_map, Hn. reflexivity. }
      rewrite map_fst_enumerate in Hi.
      assert (Hlt : n < length (seq 0 (length xs))).
      { apply nth_error_Some. rewrite Hi. discriminate. }
      rewrite length_seq in Hlt. rewrite nth_error_seq in Hi.
      destruct (Nat.ltb_spec n (length xs)); [| lia]. injection Hi as <-.
      apply (nth_error_combine_seq xs 0 n x). exact Hn.
    + intros Hn. apply (nth_error_combine_seq xs 0 i x) in Hn.
      apply nth_error_In in Hn. exact Hn.
  - apply map_fst_enumerate.
  - unfold enumerate. generalize 0. induction xs as [| y xs IH]; intros j; cbn.
    + reflexivity.
    + rewrite IH. reflexivity.
Qed.





Lemma apply_setters_keep (sts : list setter) :
  forall self,
    adsorbate_slab_configs (apply_setters self sts) = adsorbate_slab_configs self
    /\ bulk (apply_setters self sts) = bulk self
    /\ slabs (apply_setters self sts) = slabs self.
Proof.
  induction sts as [| st sts IH]; intros self; [repeat split |].
  change (apply_setters self (st :: sts)) with (apply_setters (apply_setter self st) sts).
  destruct (IH (apply_setter self st)) as (H1 & H2 & H3).
  rewrite H1, H2, H3. destruct st; repeat split.
Qed.

(** X15. A system fresh from a successful construction cannot be relaxed
    yet: its bulk has no [db_id], which only the database writers assign,
    so whatever path and calculator are set, [relax_adsorbate_slabs]
    raises [AttributeError] on the first configuration, before any
    directory is created, any relaxation is run or any store is opened. *)
Theorem X15_fresh_system_cannot_be_relaxed (bulk_structure : Atoms) (adsorbate : Adsorbate)
    (mode : string) (num_sites num_augmentations_per_site : Z)
    (structures : list Atoms) (s : State) :
  world_slabs (st_trace s) bulk_structure = inr structures ->
  structures <> [] ->
  placement_succeeds adsorbate mode num_sites num_augmentations_per_site ->
  exists self s1,
    init bulk_structure adsorbate mode num_sites num_augmentations_per_site s = (Ok self, s1)
    /\ forall (sts : list setter) (db : Db),
         relax_adsorbate_slabs (apply_setters self sts) db s1
         = (Raise (AttributeError "'Bulk' object has no attribute 'db_id'"), s1).
Proof.
  intros Hw Hne Hpl.
  destruct (init_builds bulk_structure adsorbate mode num_sites num_augmentations_per_site
              structures s Hw Hne Hpl)
    as (self & s1 & sl & cfgs & Hinit & _ & Hsl & Hcfgs & Hmap & Hpar & Hnone & Hcne).
  exists self, s1. split; [exact Hinit |]. intros sts db.
  unfold relax_adsorbate_slabs. rewrite (proj1 (apply_setters_keep sts self)), Hcfgs.
  destruct cfgs as [| c cfgs]; [contradiction |].
  cbn [for_each]. unfold bind at 1. unfold relax_config.
  unfold bind at 1 2. unfold get_slab at 1, get_bulk at 1.
  rewrite (Hpar (cfg_slab c)) by (rewrite <- Hmap; left; reflexivity).
  rewrite Hnone. reflexivity.
Qed.

End Further.

(** ** The claims at work on the sample world *)

Section Runs.
Import Sample.

Example built_system :
  built = @Build_CatalystSystem structures None None 0 (Some [1; 2])
            (Some [first_config; second_config]).
Proof. reflexivity. Qed.

Example written_ids :
  @config_ids structures state_written first_config = Some (4%Z, 7%Z)
  /\ @config_ids structures state_written second_config = Some (4%Z, 8%Z).
Proof. split; reflexivity. Qed.

(** A store failure in the middle of the loop: the first bulk is written
    and keeps its id, the second write is refused, the third bulk is never
    written, the store is released with the exception, and the writer
    raises it. *)
Example refused_write_mid_loop :
  let r := @write_bulks_to_db structures world_refusing [0; 1; 2] 5 state_three_bulks in
  fst r = Raise (ExternalError "refused")
  /\ st_trace (snd r)
     = [EDbEnter 5; EDbWrite 5 (12 : @Atoms structures) [] (inr 1%Z);
        EDbWrite 5 (13 : @Atoms structures) [] (inl (ExternalError "refused"));
        EDbExit 5 (Some (ExternalError "refused"))]
  /\ map (fun l => bulk_db_id (st_bulks (snd r) l)) [0; 1; 2] = [Some 1%Z; None; None].
Proof. vm_compute. repeat split. Qed.

Example relax_run :
  let r := @relax_adsorbate_slabs structures world ready 9 state_written in
  fst r = Ok tt
  /\ firstn 9 (skipn 10 (st_trace (snd r)))
     = [EMakedirs "out/bulk4_slab7" true;
        ERelax (100 : @Atoms structures) "out/bulk4_slab7/adslab0.traj"
          "out/bulk4_slab7/adslab0.txt" None;
        ERelax (101 : @Atoms structures) "out/bulk4_slab7/adslab1.traj"
          "out/bulk4_slab7/adslab1.txt" None;
        EPrint "Error relaxing adsorbate slab bulk4,slab7,adslab1: diverged";
        ERelax (102 : @Atoms structures) "out/bulk4_slab7/adslab2.traj"
          "out/bulk4_slab7/adslab2.txt" None;
        EDbEnter 9;
        EDbWrite 9 (1100 : @Atoms structures) (relaxed_tags 4 7 0) (inr 16%Z);
        EDbWrite 9 (1102 : @Atoms structures) (relaxed_tags 4 7 2) (inr 17%Z);
        EDbExit 9 None].
Proof. vm_compute. repeat split. Qed.



Example keeping_store_after_refusal :
  keeping_store 5
    (st_trace (snd (@write_bulks_to_db structures world_refusing [0; 1; 2] 5
                      state_three_bulks)))
  = [((12 : @Atoms structures), ([] : Tags), 1%Z)].
Proof. reflexivity. Qed.

Lemma sample_store_accepts db : @store_accepts structures world db.
Proof. intros tr a kv. eexists. reflexivity. Qed.

Lemma C1_one_candidate_fails_witness :
  exists (records : list (@Event structures)) s1,
    @relax_adsorbate_slabs structures world ready 9 state_written
    = for_each [second_config] (@relax_config structures world ready 9) s1
    /\ length records = 2.
Proof.
  destruct (@C1_one_candidate_fails structures world ready 9 "out" [] [second_config]
              first_config 4%Z 7%Z 1 (ExternalError "diverged") state_written state_written)
    as (records & s1 & H1 & _ & H3 & _).
  - reflexivity.
  - reflexivity.
  - reflexivity.
  - reflexivity.
  - cbn. lia.
  - reflexivity.
  - intros tr a kv. eexists. reflexivity.
  - intros tr i l Hin. cbn in Hin.
    destruct Hin as [[= <- <-] | [[= <- <-] | [[= <- <-] | []]]]; vm_compute; eauto.
  - exists records, s1. split; [exact H1 | exact H3].
Defined.

Lemma C3_one_config_per_slab_witness :
  exists self s' sl (cfgs : list (@AdsorbateSlabConfig structures)),
    @init structures world 0 CO "random" 100%Z 1%Z state0 = (Ok self, s')
    /\ length cfgs = 2
    /\ adsorbate_slab_configs self = Some cfgs
    /\ map cfg_slab cfgs = sl.
Proof.
  destruct (@C3_one_config_per_slab structures world 0 CO "random" 100%Z 1%Z [10; 11] state0)
    as (self & s' & sl & cfgs & H1 & _ & H3 & _ & H5 & H6 & _).
  - reflexivity.
  - discriminate.
  - intros tr a. eexists. reflexivity.
  - exists self, s', sl, cfgs. repeat split; assumption.
Defined.

Lemma C4_enumeration_failure_is_swallowed_witness :
  exists self s',
    @init structures world_no_slabs 0 CO "random" 100%Z 1%Z state0 = (Ok self, s')
    /\ slabs self = None
    /\ adsorbate_slab_configs self = None.
Proof.
  destruct (@C4_enumeration_failure_is_swallowed structures world_no_slabs 0 CO "random"
              100%Z 1%Z (ExternalError "no slabs") state0)
    as (self & s' & H1 & H2 & H3 & _).
  - reflexivity.
  - exists self, s'. repeat split; assumption.
Defined.

Lemma C5_relax_without_configs_raises_witness :
  exists self s',
    @init structures world_no_slabs 0 CO "random" 100%Z 1%Z state0 = (Ok self, s')
    /\ exists msg,
         @relax_adsorbate_slabs structures world_no_slabs
           (apply_setters self [SetPath "out"; SetCalculator (tt : @Calc structures)]) 9 s'
         = (Raise (AttributeError msg), s').
Proof.
  destruct (@C5_relax_without_configs_raises structures world_no_slabs 0 CO "random"
              100%Z 1%Z state0)
    as (self & s' & H1 & _ & H3).
  - right. eexists. reflexivity.
  - exists self, s'. split; [exact H1 |].
    exact (proj2 (H3 [SetPath "out"; SetCalculator (tt : @Calc structures)] 9 s')).
Defined.

Lemma C6_slab_records_carry_bulk_ids_witness :
  exists s',
    (@write_bulks_to_db structures world [0] 5 ;;
     @write_slabs_to_db structures world [[1; 2]] 6) state_built = (Ok tt, s').
Proof.
  destruct (@C6_slab_records_carry_bulk_ids structures world 5 6 [0] [[1; 2]] state_built)
    as (bulk_records & slab_records & s' & H1 & _).
  - intros tr a kv. eexists. reflexivity.
  - intros tr a kv. eexists. reflexivity.
  - intros slab [<- | [<- | []]]; vm_compute; auto.
  - exists s'. exact H1.
Defined.

Lemma C7_configs_written_witness :
  exists records s',
    @write_adsorbate_slab_configs_to_db structures world [first_config; second_config] 7
      state_written = (Ok tt, s')
    /\ st_trace s' = (st_trace state_written ++ EDbEnter 7 :: records ++ [EDbExit 7 None])%list.
Proof.
  destruct (@C7_configs_written structures world 7 [first_config; second_config] state_written)
    as (records & s' & H1 & H2 & _).
  - intros tr a kv. eexists. reflexivity.
  - intros c [<- | [<- | []]]; do 2 eexists; reflexivity.
  - exists records, s'. split; assumption.
Defined.


Lemma C10_relax_without_path_raises_witness :
  path built = None
  /\ @relax_adsorbate_slabs structures world built 9 state_written
     = (Raise (TypeError "expected str, bytes or os.PathLike object, not NoneType"),
        state_written).
Proof.
  split.
  - apply (proj1 (@C10_relax_without_path_raises structures world)
             0 CO "random" 100%Z 1%Z state0 built state_built tt).
    reflexivity.
  - apply (proj2 (@C10_relax_without_path_raises structures world)
             built 9 first_config [second_config] 4%Z 7%Z state_written);
      reflexivity.
Defined.

(** Not every system without a path meets the path error of C10: the
    system built where no slabs can be cut never had [set_path] called,
    its path is [None], and [relax_adsorbate_slabs] raises the
    [AttributeError] of the missing configurations instead. *)
Lemma C10_counterexample :
  @init structures world_no_slabs 0 CO "random" 100%Z 1%Z state0 = (Ok degraded, state_degraded)
  /\ path degraded = None
  /\ @relax_adsorbate_slabs structures world_no_slabs degraded 9 state_degraded
     = (Raise (AttributeError
                 "'CatalystSystem' object has no attribute 'adsorbate_slab_configs'"),
        state_degraded)
  /\ ~ (exists msg,
          fst (@relax_adsorbate_slabs structures world_no_slabs degraded 9 state_degraded)
          = Raise (TypeError msg)).
Proof.
  split; [reflexivity |]. split; [reflexivity |]. split; [reflexivity |].
  intros [msg H]. vm_compute in H. discriminate H.
Qed.

End Runs.

(** ** The further properties at work on the sample worlds *)

Section FurtherRuns.
Import Sample Worlds.

Lemma X3_last_record_gives_the_id_witness :
  exists id s',
    @write_bulks_to_db structures world [0; 0; 1] 5 state_three_bulks = (Ok tt, s')
    /\ bulk_db_id (st_bulks s' 0) = Some id.
Proof.
  destruct (@X3_last_record_gives_the_id structures world 5 [0] [1] 0 state_three_bulks)
    as (rec_pre & id & rec_post & s' & H1 & _ & _ & _ & _ & _ & H5).
  - intros tr a kv. eexists. reflexivity.
  - intros [H | []]. discriminate H.
  - exists id, s'. split; [exact H1 | exact H5].
Defined.

Lemma X4_refused_bulk_keeps_earlier_ids_witness :
  exists s',
    @write_bulks_to_db structures world_refusing [0; 1; 2] 5 state_three_bulks
    = (Raise (ExternalError "refused"), s')
    /\ st_bulks s' 2 = st_bulks state_three_bulks 2.
Proof.
  destruct (@X4_refused_bulk_keeps_earlier_ids structures world_refusing 5 [0] [2] 1
              (ExternalError "refused") state_three_bulks)
    as (rec_pre & s' & H1 & _ & _ & _ & H5).
  - intros l [<- | []] tr. eexists. reflexivity.
  - intros tr. reflexivity.
  - exists s'. split; [exact H1 |]. apply H5. intros [H | []]. discriminate H.
Defined.

Lemma X5_placement_failure_escapes_witness :
  exists s',
    @init structures no_placement 0 CO "random" 100%Z 1%Z state0
    = (Raise (ExternalError "no site"), s').
Proof.
  destruct (@X5_placement_failure_escapes structures no_placement 0 CO "random" 100%Z 1%Z
              10 [11] (ExternalError "no site") state0)
    as (s' & H1 & _).
  - reflexivity.
  - reflexivity.
  - exists s'. exact H1.
Defined.

Lemma X6_empty_enumeration_is_silent_witness :
  exists self s',
    @init structures empty_enumeration 0 CO "random" 100%Z 1%Z state0 = (Ok self, s')
    /\ slabs self = Some []
    /\ st_trace s' = [ESlabs (0 : @Atoms structures)].
Proof.
  destruct (@X6_empty_enumeration_is_silent structures empty_enumeration 0 CO "random"
              100%Z 1%Z state0)
    as (self & s' & H1 & H2 & _ & H4).
  - reflexivity.
  - exists self, s'. repeat split; assumption.
Defined.

Lemma X7_written_system_has_its_ids_witness :
  exists self sl (cfgs : list (@AdsorbateSlabConfig structures)) s1 s2 B,
    @init structures world 0 CO "random" 100%Z 1%Z state0 = (Ok self, s1)
    /\ (@write_bulks_to_db structures world [bulk self] 5 ;;
        @write_slabs_to_db structures world [sl] 6) s1 = (Ok tt, s2)
    /\ forall c, In c cfgs -> exists S, config_ids s2 c = Some (B, S).
Proof.
  destruct (@X7_written_system_has_its_ids structures world 0 CO "random" 100%Z 1%Z
              [10; 11] 5 6 state0)
    as (self & sl & cfgs & s1 & s2 & B & H1 & _ & _ & H4 & _ & H6).
  - reflexivity.
  - discriminate.
  - intros tr a. eexists. reflexivity.
  - intros tr a kv. eexists. reflexivity.
  - intros tr a kv. eexists. reflexivity.
  - exists self, sl, cfgs, s1, s2, B. split; [exact H1 |]. split; [exact H4 |].
    intros c Hc. destruct (H6 c Hc) as (S & HS & _). exists S. exact HS.
Defined.

Lemma X8_relax_accounts_for_every_candidate_witness :
  exists (evs : list (@Event structures)) s',
    @relax_adsorbate_slabs structures world ready 9 state_written = (Ok tt, s')
    /\ count is_relax evs = 6
    /\ count is_record evs + count is_print evs = 6.
Proof.
  destruct (@X8_relax_accounts_for_every_candidate structures world ready 9 "out"
              [first_config; second_config] state_written)
    as (evs & s' & H1 & _ & _ & _ & H5 & H6).
  - reflexivity.
  - reflexivity.
  - intros c [<- | [<- | []]]; do 2 eexists; reflexivity.
  - intros tr d. reflexivity.
  - intros tr a kv. eexists. reflexivity.
  - exists evs, s'. split; [exact H1 |]. split; [exact H5 | exact H6].
Defined.

Lemma X9_nothing_relaxed_writes_nothing_witness :
  exists (evs : list (@Event structures)) s1,
    @relax_adsorbate_slabs structures no_relaxation ready 9 state_written
    = for_each [second_config] (@relax_config structures no_relaxation ready 9) s1
    /\ st_trace s1
       = (st_trace state_written ++ EMakedirs "out/bulk4_slab7" true
            :: evs ++ [EDbEnter 9; EDbExit 9 None])%list.
Proof.
  destruct (@X9_nothing_relaxed_writes_nothing structures no_relaxation ready 9 "out" []
              [second_config] first_config 4%Z 7%Z state_written state_written)
    as (evs & s1 & H1 & H2 & _).
  - reflexivity.
  - reflexivity.
  - reflexivity.
  - reflexivity.
  - reflexivity.
  - intros tr i l _. eexists. reflexivity.
  - exists evs, s1. split; [exact H1 | exact H2].
Defined.

Lemma X11_slab_of_unwritten_bulk_witness :
  exists s',
    @write_slabs_to_db structures world [[1; 2]] 6 state_built
    = (Raise (AttributeError "'Bulk' object has no attribute 'db_id'"), s')
    /\ st_slabs s' 1 = st_slabs state_built 1.
Proof.
  destruct (@X11_slab_of_unwritten_bulk structures world 6 [[1; 2]] [] [2] 1 state_built)
    as (records & s' & H1 & _ & _ & H4).
  - intros tr a kv. eexists. reflexivity.
  - reflexivity.
  - intros l [].
  - reflexivity.
  - exists s'. split; [exact H1 |]. apply H4. intros [].
Defined.

Lemma X12_makedirs_error_stops_the_run_witness :
  exists s',
    @relax_adsorbate_slabs structures read_only ready 9 state_written
    = (Raise (ExternalError "read-only file system"), s')
    /\ st_trace s' = (st_trace state_written ++ [EMakedirs "out/bulk4_slab7" true])%list.
Proof.
  destruct (@X12_makedirs_error_stops_the_run structures read_only ready 9 "out" []
              [second_config] first_config 4%Z 7%Z (ExternalError "read-only file system")
              state_written state_written)
    as (s' & H1 & H2).
  - reflexivity.
  - reflexivity.
  - reflexivity.
  - reflexivity.
  - reflexivity.
  - exists s'. split; [exact H1 | exact H2].
Defined.

Lemma X13_store_error_after_all_relaxations_witness :
  exists (evs : list (@Event structures)) s',
    @relax_adsorbate_slabs structures store_down ready 9 state_written
    = (Raise (ExternalError "locked"), s')
    /\ count is_relax evs = 3.
Proof.
  destruct (@X13_store_error_after_all_relaxations structures store_down ready 9 "out" []
              [second_config] first_config 4%Z 7%Z 3 [4; 5] 1100
              (ExternalError "locked") state_written state_written)
    as (evs & s' & H1 & _ & _ & H4).
  - reflexivity.
  - reflexivity.
  - reflexivity.
  - reflexivity.
  - reflexivity.
  - reflexivity.
  - reflexivity.
  - intros tr x kv. reflexivity.
  - exists evs, s'. split; [exact H1 | exact H4].
Defined.

Lemma X15_fresh_system_cannot_be_relaxed_witness :
  exists self s1,
    @init structures world 0 CO "random" 100%Z 1%Z state0 = (Ok self, s1)
    /\ @relax_adsorbate_slabs structures world
         (apply_setters self [SetPath "out"; SetCalculator (tt : @Calc structures)]) 9 s1
       = (Raise (AttributeError "'Bulk' object has no attribute 'db_id'"), s1).
Proof.
  destruct (@X15_fresh_system_cannot_be_relaxed structures world 0 CO "random" 100%Z 1%Z
              [10; 11] state0)
    as (self & s1 & H1 & H2).
  - reflexivity.
  - discriminate.
  - intros tr a. eexists. reflexivity.
  - exists self, s1. split; [exact H1 | apply H2].
Defined.


End FurtherRuns.
